(** * BinhThanhAI: retrieval and prompt assembly of the question-answering server

    A shallow embedding of [src/server.js] (the current server, with Word
    document support) and of its legacy variant, and the properties of the
    retrieval-and-prompt-assembly logic proved about them.

    - JavaScript strings are sequences of UTF-16 code units ([jstring]);
      string constants are written in UTF-8 and decoded by [u].
    - Numbers are the integer-valued ones, in [Z].
    - The document store is a list of documents in natural (insertion) order;
      a sort keeps the natural order of documents with equal keys.
    - Logging has no part in what a handler answers and is left out.
    - The platform's pattern engine ([new RegExp], [$regex]) is modelled for
      the fragment of the pattern grammar made of literals, [.], [^], [$],
      groups, alternation and the quantifiers [*], [+], [?]; everything else
      is reported as [NotModelled], never silently accepted.
    - Exceptions and the handlers' [try]/[catch] are an error monad.
    - The carousel routes see the disk as the files that exist, a path and a
      content each; [path.join] and the server's directory are parameters.
    - The migration script [src/migrate-data.js] is its loop over the
      stored entries, each read through the script's schema. *)

From Stdlib Require Import String Ascii DecimalString.
From Stdlib Require Import List NArith ZArith Bool Lia Permutation Sorted.
Import ListNotations.

Set Implicit Arguments.

(** ** JavaScript strings *)

Module JS.

(** A string value: its UTF-16 code units. *)
Definition jstring := list N.

Definition codeUnitsEq (a b : jstring) : bool :=
  if list_eq_dec N.eq_dec a b then true else false.

(** UTF-8 decoding of a source-file literal into code units. *)
Definition cont (b : N) : N := N.land b 63.

Fixpoint utf16 (bs : list N) : jstring :=
  match bs with
  | [] => []
  | b0 :: t0 =>
    if (b0 <? 128)%N then b0 :: utf16 t0
    else if (b0 <? 224)%N then
      match t0 with
      | b1 :: t1 => (N.land b0 31 * 64 + cont b1)%N :: utf16 t1
      | [] => [65533%N]
      end
    else if (b0 <? 240)%N then
      match t0 with
      | b1 :: b2 :: t2 =>
          (N.land b0 15 * 4096 + cont b1 * 64 + cont b2)%N :: utf16 t2
      | _ => [65533%N]
      end
    else
      match t0 with
      | b1 :: b2 :: b3 :: t3 =>
          let cp := (N.land b0 7 * 262144 + cont b1 * 4096
                     + cont b2 * 64 + cont b3)%N in
          let v := (cp - 65536)%N in
          (55296 + N.shiftr v 10)%N :: (56320 + N.land v 1023)%N :: utf16 t3
      | _ => [65533%N]
      end
  end.

Definition u (s : string) : jstring :=
  utf16 (map N_of_ascii (list_ascii_of_string s)).

(** An integer [z] stands for the Number nearest to it: itself up to 2^53,
    beyond that the integer with a 53-bit significand that rounding to
    nearest, ties to even, gives; [None] is Infinity. *)
Definition toNumber (z : Z) : option Z :=
  let bits := (Z.log2 z + 1)%Z in
  if (bits <=? 53)%Z then Some z
  else
    let shift := (bits - 53)%Z in
    let q := Z.shiftr z shift in
    let rest := (z - Z.shiftl q shift)%Z in
    let half := Z.shiftl 1 (shift - 1) in
    let q' :=
      if (half <? rest)%Z || ((rest =? half)%Z && Z.odd q)
      then (q + 1)%Z else q in
    let v := Z.shiftl q' shift in
    if (2 ^ 1024 <=? v)%Z then None else Some v.

Definition digits (z : Z) : string := NilZero.string_of_int (Z.to_int z).

(** The candidates with [k] digits for a Number [v] of [n] digits: the two
    multiples of [10^(n-k)] around [v] that have [k] digits and that are
    read back as [v]; the nearer one first, the even one on a tie. *)
Definition candidates (v : Z) (n k : nat) : list Z :=
  let unit := (10 ^ Z.of_nat (n - k))%Z in
  let lo := (v / unit)%Z in
  let hi := (lo + 1)%Z in
  let good s :=
    (10 ^ Z.of_nat (k - 1) <=? s)%Z && (s <? 10 ^ Z.of_nat k)%Z
    && match toNumber (s * unit) with
       | Some w => (w =? v)%Z
       | None => false
       end in
  let dlo := (v - lo * unit)%Z in
  let dhi := (hi * unit - v)%Z in
  let ordered :=
    if (dlo <? dhi)%Z then [lo; hi]
    else if (dhi <? dlo)%Z then [hi; lo]
    else if Z.even lo then [lo; hi] else [hi; lo] in
  filter good ordered.

(** The fewest digits [s] and the position [n] of the decimal point with
    which [v] is written: [s * 10^(n - k)] is read back as [v]. *)
Fixpoint shortest (v : Z) (n : nat) (ks : list nat) : Z * nat :=
  match ks with
  | [] => (v, n)
  | k :: ks' =>
    match candidates v n k with
    | s :: _ => (s, n)
    | [] => shortest v n ks'
    end
  end.

Definition shortestDigits (v : Z) : Z * nat :=
  let n := String.length (digits v) in
  match toNumber (10 ^ Z.of_nat n) with
  | Some w => if (w =? v)%Z then (1%Z, S n) else shortest v n (seq 1 17)
  | None => shortest v n (seq 1 17)
  end.

Fixpoint zeros (n : nat) : string :=
  match n with
  | O => EmptyString
  | S n' => String "0"%char (zeros n')
  end.

(** Number::toString of a positive Number: all its digits and zeros up to
    21 digits, the exponent form from there on. *)
Definition positiveToString (v : Z) : string :=
  let sn := shortestDigits v in
  let s := digits (fst sn) in
  let n := snd sn in
  let k := String.length s in
  if (n <=? 21)%nat then (s ++ zeros (n - k))%string
  else
    match s with
    | String d EmptyString =>
      (String d EmptyString ++ "e+" ++ digits (Z.of_nat (n - 1)))%string
    | String d rest =>
      (String d EmptyString ++ "." ++ rest ++ "e+"
       ++ digits (Z.of_nat (n - 1)))%string
    | EmptyString => EmptyString
    end.

(** [String(n)] for the Number that the integer [z] stands for. *)
Definition numberToString (z : Z) : jstring :=
  u (match z with
     | Z0 => "0"%string
     | Zpos _ =>
       match toNumber z with
       | Some v => positiveToString v
       | None => "Infinity"%string
       end
     | Zneg _ =>
       match toNumber (- z) with
       | Some v => ("-" ++ positiveToString v)%string
       | None => "-Infinity"%string
       end
     end).

(** WhiteSpace and LineTerminator code points, as [String.prototype.trim]
    strips them. *)
Definition isWhiteSpace (c : N) : bool :=
  ((9 <=? c) && (c <=? 13) || (c =? 32) || (c =? 160) || (c =? 5760)
   || (8192 <=? c) && (c <=? 8202) || (c =? 8232) || (c =? 8233)
   || (c =? 8239) || (c =? 8287) || (c =? 12288) || (c =? 65279))%N.

Fixpoint trimStart (s : jstring) : jstring :=
  match s with
  | c :: s' => if isWhiteSpace c then trimStart s' else s
  | [] => []
  end.

Definition trimEnd (s : jstring) : jstring := rev (trimStart (rev s)).

Definition trim (s : jstring) : jstring := trimEnd (trimStart s).

(** [Array.prototype.join]. *)
Fixpoint join (sep : jstring) (parts : list jstring) : jstring :=
  match parts with
  | [] => []
  | [p] => p
  | p :: rest => p ++ sep ++ join sep rest
  end.

(** [Array.prototype.map] with the callback's index argument. *)
Fixpoint mapFrom {A B} (f : A -> nat -> B) (i : nat) (l : list A) : list B :=
  match l with
  | [] => []
  | x :: l' => f x i :: mapFrom f (S i) l'
  end.

Definition mapi {A B} (f : A -> nat -> B) (l : list A) : list B :=
  mapFrom f 0 l.

(** Request-body values, as [bodyParser.json] produces them. Numbers are the
    integer-valued ones; [Obj] is an array, or an object that has no string
    [_id] of its own. *)
Inductive value :=
| Undefined
| Null
| Bool (b : bool)
| Num (z : Z)
| Str (s : jstring)
| Obj.

(** ToBoolean. *)
Definition truthy (v : value) : bool :=
  match v with
  | Undefined | Null => false
  | Obj => true
  | Bool b => b
  | Num z => negb (z =? 0)%Z
  | Str s => match s with [] => false | _ => true end
  end.

(** [a || b]. *)
Definition or (a b : value) : value := if truthy a then a else b.

(** What a handler's [try] block produces: a value, or a thrown error.
    [NotModelled] and [OutOfFuel] are not JavaScript errors: they mark an
    input outside the modelled fragment of the pattern grammar, and a parse
    that the recursion bound cut short. *)
Inductive error :=
| TypeError
| SyntaxError
| CastError
| ValidationError
| UpstreamError
| NotModelled
| OutOfFuel.

Inductive exc (A : Type) :=
| Ok (a : A)
| Throw (e : error).
Arguments Ok {A} a.
Arguments Throw {A} e.

Definition bind {A B} (m : exc A) (k : A -> exc B) : exc B :=
  match m with
  | Ok a => k a
  | Throw e => Throw e
  end.

End JS.

Import JS.

Notation "x <- m ;; k" := (JS.bind m (fun x => k))
  (at level 61, m at next level, right associativity).

(** ** The platform

    What the engines decide and the source does not: the case folding of the
    pattern engine under the [i] flag (one code unit at a time), [Number]
    applied to a string ([None] is NaN) and the driver's parsing of a route
    parameter into an ObjectId. *)

Definition ObjectId := N.

Class Platform := {
  canonicalize : N -> N;
  stringToNumber : jstring -> option Z;
  parseObjectId : jstring -> option ObjectId
}.

(** ** Patterns: [new RegExp(pattern, flags)] and [test] *)

Module RegExp.

(** SyntaxCharacter of the pattern grammar. *)
Definition isSyntaxCharacter (c : N) : bool :=
  existsb (N.eqb c) (u "^$\.*+?()[]{}|").

Inductive token :=
| TChar (c : N)      (* a pattern character, or an escaped syntax character *)
| TEscape (c : N)    (* any other escape: a class, an assertion, a reference *)
| TDot | TStar | TPlus | TQuest | TCaret | TDollar
| TLParen | TRParen | TBar
| TLBrack | TRBrack | TLBrace | TRBrace.

Definition tokenOf (c : N) : token :=
  if (c =? 46)%N then TDot
  else if (c =? 42)%N then TStar
  else if (c =? 43)%N then TPlus
  else if (c =? 63)%N then TQuest
  else if (c =? 94)%N then TCaret
  else if (c =? 36)%N then TDollar
  else if (c =? 40)%N then TLParen
  else if (c =? 41)%N then TRParen
  else if (c =? 124)%N then TBar
  else if (c =? 91)%N then TLBrack
  else if (c =? 93)%N then TRBrack
  else if (c =? 123)%N then TLBrace
  else if (c =? 125)%N then TRBrace
  else TChar c.

Definition backslash : N := 92.

(** A pattern that ends in a lone backslash is a syntax error. *)
Fixpoint lex (p : jstring) : exc (list token) :=
  match p with
  | [] => Ok []
  | c :: rest =>
    if (c =? backslash)%N then
      match rest with
      | [] => Throw SyntaxError
      | e :: rest' =>
        ts <- lex rest' ;;
        Ok ((if isSyntaxCharacter e then TChar e else TEscape e) :: ts)
      end
    else
      ts <- lex rest ;; Ok (tokenOf c :: ts)
  end.

Inductive node :=
| Empty
| Char (c : N)
| Dot
| AssertStart
| AssertEnd
| Seq (a b : node)
| Alt (a b : node)
| Star (a : node).

(** The [?] that makes a quantifier lazy changes which match is found, not
    whether there is one. *)
Definition skipLazy (ts : list token) : list token :=
  match ts with
  | TQuest :: ts' => ts'
  | _ => ts
  end.

Definition quantifier (atom : node) (ts : list token)
  : exc (node * list token) :=
  match ts with
  | TStar :: ts' => Ok (Star atom, skipLazy ts')
  | TPlus :: ts' => Ok (Seq atom (Star atom), skipLazy ts')
  | TQuest :: ts' => Ok (Alt atom Empty, skipLazy ts')
  | TLBrace :: _ => Throw NotModelled
  | _ => Ok (atom, ts)
  end.

Fixpoint parseDisjunction (fuel : nat) (ts : list token)
  : exc (node * list token) :=
  match fuel with
  | O => Throw OutOfFuel
  | S f =>
    r <- parseAlternative f ts ;;
    match snd r with
    | TBar :: ts2 =>
      d <- parseDisjunction f ts2 ;; Ok (Alt (fst r) (fst d), snd d)
    | _ => Ok r
    end
  end
with parseAlternative (fuel : nat) (ts : list token)
  : exc (node * list token) :=
  match fuel with
  | O => Throw OutOfFuel
  | S f =>
    match ts with
    | [] | TBar :: _ | TRParen :: _ => Ok (Empty, ts)
    | _ =>
      t <- parseTerm f ts ;;
      a <- parseAlternative f (snd t) ;;
      Ok (Seq (fst t) (fst a), snd a)
    end
  end
with parseTerm (fuel : nat) (ts : list token) : exc (node * list token) :=
  match fuel with
  | O => Throw OutOfFuel
  | S f =>
    match ts with
    | TChar c :: ts1 => quantifier (Char c) ts1
    | TDot :: ts1 => quantifier Dot ts1
    | TCaret :: ts1 => Ok (AssertStart, ts1)
    | TDollar :: ts1 => Ok (AssertEnd, ts1)
    | TLParen :: TQuest :: _ => Throw NotModelled
    | TLParen :: ts1 =>
      d <- parseDisjunction f ts1 ;;
      match snd d with
      | TRParen :: ts3 => quantifier (fst d) ts3
      | _ => Throw SyntaxError
      end
    | TStar :: _ | TPlus :: _ | TQuest :: _ => Throw SyntaxError
    | [] | TBar :: _ | TRParen :: _ => Throw SyntaxError
    | TEscape _ :: _ | TLBrack :: _ | TRBrack :: _
    | TLBrace :: _ | TRBrace :: _ => Throw NotModelled
    end
  end.

Definition parsePattern (p : jstring) : exc node :=
  ts <- lex p ;;
  r <- parseDisjunction (3 * length ts + 3) ts ;;
  match snd r with
  | [] => Ok (fst r)
  | _ => Throw SyntaxError
  end.

Record regexp := { source : node; ignoreCase : bool }.

Definition isFlag (c : N) : bool := existsb (N.eqb c) (u "dgimsuvy").

Definition parseFlags (flags : jstring) : exc bool :=
  match flags with
  | [] => Ok false
  | [105%N] => Ok true
  | _ => if forallb isFlag flags then Throw NotModelled else Throw SyntaxError
  end.

(** [new RegExp(pattern, flags)]. *)
Definition construct (pattern flags : jstring) : exc regexp :=
  i <- parseFlags flags ;;
  n <- parsePattern pattern ;;
  Ok {| source := n; ignoreCase := i |}.

Section Matching.
Context {P : Platform}.

Definition sameChar (ic : bool) (c d : N) : bool :=
  if ic then (canonicalize c =? canonicalize d)%N else (c =? d)%N.

Definition isLineTerminator (c : N) : bool :=
  ((c =? 10) || (c =? 13) || (c =? 8232) || (c =? 8233))%N.

(** Backtracking matcher in continuation-passing style. [atStart] says that
    nothing of the input precedes [s]; [n] bounds the iterations of a star,
    each of which must consume input. *)
Fixpoint matchNode (ic : bool) (r : node) (n : nat) (atStart : bool)
  (s : jstring) (k : bool -> jstring -> bool) {struct r} : bool :=
  match r with
  | Empty => k atStart s
  | Char c =>
    match s with
    | d :: s' => sameChar ic c d && k false s'
    | [] => false
    end
  | Dot =>
    match s with
    | d :: s' => negb (isLineTerminator d) && k false s'
    | [] => false
    end
  | AssertStart => atStart && k atStart s
  | AssertEnd => match s with [] => k atStart s | _ => false end
  | Seq a b =>
    matchNode ic a n atStart s (fun st' s' => matchNode ic b n st' s' k)
  | Alt a b => matchNode ic a n atStart s k || matchNode ic b n atStart s k
  | Star a =>
    (fix iterate (m : nat) (st : bool) (t : jstring) {struct m} : bool :=
       k st t ||
       match m with
       | O => false
       | S m' =>
         matchNode ic a n st t
           (fun st' t' => (length t' <? length t)%nat && iterate m' st' t')
       end) n atStart s
  end.

Definition matchAt (re : regexp) (atStart : bool) (s : jstring) : bool :=
  matchNode (ignoreCase re) (source re) (S (length s)) atStart s
    (fun _ _ => true).

Fixpoint searchFrom (re : regexp) (atStart : bool) (s : jstring) : bool :=
  matchAt re atStart s ||
  match s with
  | [] => false
  | _ :: s' => searchFrom re false s'
  end.

(** [regexp.test(s)]: is there a match anywhere in [s]. *)
Definition test (re : regexp) (s : jstring) : bool := searchFrom re true s.

End Matching.

End RegExp.

(** ** The document store: queries and the ChatData schema *)

Module Mongo.

Section Queries.
Variable A : Type.

(** [Model.find(filter)]: the matching documents, in natural order. *)
Definition find (filter : A -> bool) (c : list A) : list A :=
  List.filter filter c.

(** [.limit(n)]. *)
Definition limit (n : nat) (c : list A) : list A := firstn n c.

(** [.sort({ key: -1 })]: descending, documents with equal keys keep their
    natural order. *)
Fixpoint insertDesc (key : A -> Z) (d : A) (l : list A) : list A :=
  match l with
  | [] => [d]
  | x :: l' =>
    if (key x <=? key d)%Z then d :: l else x :: insertDesc key d l'
  end.

Definition sortDesc (key : A -> Z) (c : list A) : list A :=
  fold_right (insertDesc key) [] c.

(** [Model.findByIdAndDelete(id)]: the removed document, if there was one,
    and what is left of the collection. *)
Fixpoint findByIdAndDelete (idOf : A -> ObjectId) (id : ObjectId)
  (c : list A) : option A * list A :=
  match c with
  | [] => (None, [])
  | x :: c' =>
    if (idOf x =? id)%N then (Some x, c')
    else let r := findByIdAndDelete idOf id c' in (fst r, x :: snd r)
  end.

End Queries.

(** The [$regex] operator on a string field. *)
Definition regexMatch {P : Platform} (re : RegExp.regexp) (field : jstring)
  : bool :=
  RegExp.test re field.

Inductive FileType := text | word.

(** ChatDataSchema of the current server. *)
Record document := {
  _id : ObjectId;
  title : jstring;
  content : jstring;
  fileType : FileType;
  htmlContent : option jstring;
  imageCount : Z;
  date : jstring;
  createdAt : Z
}.

Definition collection := list document.

(** What the schema defaults draw from the environment when a document is
    created: a fresh identifier, [Date.now] and the clock's [vi-VN] locale
    string. *)
Record clock := {
  freshId : ObjectId;
  now : Z;
  nowLocale : jstring
}.

(** The object handed to [new ChatData(...)]. *)
Record fields := {
  f_title : value;
  f_content : value;
  f_fileType : value;
  f_htmlContent : value;
  f_imageCount : value
}.

(** The schema's String caster. A value that cannot be cast makes [save]
    reject with a validation error. *)
Definition castString (v : value) : exc (option jstring) :=
  match v with
  | Undefined | Null => Ok None
  | Str s => Ok (Some s)
  | Num z => Ok (Some (numberToString z))
  | Bool b => Ok (Some (u (if b then "true" else "false")))
  | Obj => Throw ValidationError
  end.

(** [{ type: String, required: true }]. *)
Definition requiredString (v : value) : exc jstring :=
  s <- castString v ;;
  match s with
  | None | Some [] => Throw ValidationError
  | Some s' => Ok s'
  end.

(** [{ type: String, enum: ['text', 'word'], default: 'text' }]. *)
Definition castFileType (v : value) : exc FileType :=
  match v with
  | Undefined => Ok text
  | Null => Throw NotModelled
  | _ =>
    s <- castString v ;;
    match s with
    | Some s' =>
      if codeUnitsEq s' (u "text") then Ok text
      else if codeUnitsEq s' (u "word") then Ok word
      else Throw ValidationError
    | None => Throw ValidationError
    end
  end.

(** [{ type: Number, default: 0 }], for integer-valued numbers. *)
Definition castNumber {P : Platform} (v : value) : exc Z :=
  match v with
  | Undefined => Ok 0%Z
  | Null | Str [] => Throw NotModelled
  | Num z => Ok z
  | Bool b => Ok (if b then 1 else 0)%Z
  | Str s =>
    match stringToNumber s with
    | Some z => Ok z
    | None => Throw ValidationError
    end
  | Obj => Throw ValidationError
  end.

(** [new ChatData(fields)] followed by validation, as [save] runs it. *)
Definition validate {P : Platform} (k : clock) (f : fields) : exc document :=
  t <- requiredString (f_title f) ;;
  c <- requiredString (f_content f) ;;
  ft <- castFileType (f_fileType f) ;;
  h <- castString (f_htmlContent f) ;;
  n <- castNumber (f_imageCount f) ;;
  Ok {| _id := freshId k; title := t; content := c; fileType := ft;
        htmlContent := h; imageCount := n;
        date := nowLocale k; createdAt := now k |}.

(** [save]: a new document goes to the end of the natural order. *)
Definition save (d : document) (db : collection) : collection := db ++ [d].

End Mongo.

(** ** HTTP responses *)

Module Http.

(** A document as the API shows it: the fields of the projection. *)
Record reference := {
  id : ObjectId;
  r_title : jstring;
  r_content : jstring;
  r_fileType : Mongo.FileType;
  r_htmlContent : option jstring;
  r_imageCount : Z;
  r_date : jstring
}.

Inductive body :=
| ErrorText (message : jstring)        (* { error: '...' } *)
| ErrorOf (e : error)                  (* { error: err.message } *)
| Message (message : jstring)          (* { message: '...' } *)
| Created (d : reference)
| Answer (answer : jstring) (references : list reference).

Record response := { status : nat; json : body }.

(** [res.json(b)] and [res.status(n).json(b)]. *)
Definition ok (b : body) : response := {| status := 200; json := b |}.
Definition fail (n : nat) (b : body) : response := {| status := n; json := b |}.

(** [try { ... } catch (err) { handler }]. *)
Definition tryCatch (block : exc response) (handler : error -> response)
  : response :=
  match block with
  | Ok r => r
  | Throw e => handler e
  end.

End Http.

(** ** The generation client

    [generateContent] may throw; its result, the result's [response] and the
    response's [text] function may each be missing, and calling [text()] may
    throw. *)

Module Gemini.

Record GenerateContentResponse := { text : option (exc jstring) }.
Record GenerateContentResult := { response : option GenerateContentResponse }.
Definition GenerativeModel := jstring -> exc (option GenerateContentResult).

End Gemini.

(** ** The server: [src/server.js] *)

Module Server.
Import Mongo Http.

Definition nl : jstring := [10%N].

(** [value.replace(/[.*+?^${}()|[\]\\]/g, '\\$&')]. *)
Definition isEscaped (c : N) : bool :=
  existsb (N.eqb c) (u ".*+?^${}()|[]\").

Fixpoint escapeRegex (value : jstring) : jstring :=
  match value with
  | [] => []
  | c :: rest =>
    if isEscaped c then RegExp.backslash :: c :: escapeRegex rest
    else c :: escapeRegex rest
  end.

Section Handlers.
Context {P : Platform}.

Definition toReference (item : document) : reference :=
  {| id := _id item; r_title := title item; r_content := content item;
     r_fileType := fileType item; r_htmlContent := htmlContent item;
     r_imageCount := imageCount item; r_date := date item |}.

(** *** POST /api/data *)

Record dataBody := {
  b_title : value;
  b_content : value;
  b_fileType : value;
  b_htmlContent : value;
  b_imageCount : value
}.

Definition post_api_data (k : clock) (db : collection) (b : dataBody)
  : response * collection :=
  if negb (truthy (b_title b)) || negb (truthy (b_content b)) then
    (fail 400 (ErrorText (u "Title and content are required")), db)
  else
    match validate k {| f_title := b_title b;
                        f_content := b_content b;
                        f_fileType := JS.or (b_fileType b) (Str (u "text"));
                        f_htmlContent := JS.or (b_htmlContent b) Null;
                        f_imageCount := JS.or (b_imageCount b) (Num 0) |} with
    | Ok newData => (ok (Created (toReference newData)), save newData db)
    | Throw err => (fail 400 (ErrorOf err), db)
    end.

(** *** DELETE /api/data/:id *)

Definition delete_api_data (db : collection) (idParam : jstring)
  : response * collection :=
  match parseObjectId idParam with
  | None => (fail 500 (ErrorOf CastError), db)
  | Some oid =>
    let r := findByIdAndDelete _id oid db in
    (ok (Message (u "Deleted successfully")), snd r)
  end.

(** *** POST /api/ask *)

(** The two queries of the handler: the documents whose title or content
    matches the escaped question, at most 6 of them, and when there is none
    the 6 newest documents. *)
Definition selectContext (question : jstring) (db : collection)
  : exc (list document) :=
  regex <- RegExp.construct (escapeRegex question) (u "i") ;;
  let relevantData :=
    limit 6 (find (fun d => regexMatch regex (title d)
                            || regexMatch regex (content d)) db) in
  if (length relevantData =? 0)%nat
  then Ok (limit 6 (sortDesc createdAt db))
  else Ok relevantData.

Definition renderItem (item : document) (index : nat) : jstring :=
  let itemText :=
    u "Mục " ++ numberToString (Z.of_nat index + 1) ++ u ": " ++ title item
    ++ nl ++ u "Ngày lưu: " ++ date item
    ++ nl ++ u "Nội dung: " ++ content item in
  if match fileType item with word => true | text => false end
     && (0 <? imageCount item)%Z
  then itemText ++ nl ++ u "(Tài liệu Word có "
       ++ numberToString (imageCount item) ++ u " hình ảnh)"
  else itemText.

Definition renderContext (relevantData : list document) : jstring :=
  join (nl ++ nl) (mapi renderItem relevantData).

Definition noDataPlaceholder : jstring := u "Không có dữ liệu".

(** [context || 'Không có dữ liệu']. *)
Definition contextOr (context : jstring) : jstring :=
  match context with
  | [] => noDataPlaceholder
  | _ => context
  end.

(** The array literal whose entries the prompt joins. *)
Definition promptLines (context question : jstring) : list jstring :=
  [ u "Bạn là trợ lý AI hỗ trợ hỏi đáp của ủy ban phường Bình Thạnh.";
    u "Luôn trả lời bằng tiếng Việt, chỉ sử dụng thông tin trong dữ liệu được cung cấp và luôn ghi nhớ Quận Bình Thạnh hiện tại đã là phường Bình Thạnh.";
    u "Nếu dữ liệu không đủ, hãy nói rõ và gợi ý người dùng kiểm tra lại sau.";
    u "Dữ liệu:";
    context;
    u "Câu hỏi: " ++ question;
    u "Câu trả lời chi tiết:" ].

Definition buildPrompt (question : jstring) (relevantData : list document)
  : jstring :=
  join (nl ++ nl) (promptLines (contextOr (renderContext relevantData)) question).

(** The text of the generation result, [''] when any part of it is missing. *)
Definition answerOf (result : option Gemini.GenerateContentResult)
  : exc jstring :=
  match result with
  | Some {| Gemini.response := Some {| Gemini.text := Some call |} |} => call
  | _ => Ok []
  end.

Definition fallbackAnswer : jstring :=
  u "Tôi chưa tìm thấy thông tin phù hợp trong dữ liệu hiện có.".

Definition shapeResponse (answer : jstring) (relevantData : list document)
  : body :=
  Answer
    (if match answer with [] => false | _ => true end
        && (0 <? length (trim answer))%nat
     then answer else fallbackAnswer)
    (map toReference relevantData).

(** [(req.body.question || '').trim()]: a truthy question that is not a
    string has no [trim]. *)
Definition questionOf (q : value) : exc jstring :=
  match JS.or q (Str []) with
  | Str s => Ok (trim s)
  | _ => Throw TypeError
  end.

Definition post_api_ask (geminiModel : option Gemini.GenerativeModel)
  (db : collection) (q : value) : response :=
  tryCatch
    (match geminiModel with
     | None => Ok (fail 500 (ErrorText (u "Thiếu cấu hình Gemini API")))
     | Some generateContent =>
       question <- questionOf q ;;
       match question with
       | [] => Ok (fail 400 (ErrorText (u "Vui lòng nhập câu hỏi")))
       | _ =>
         relevantData <- selectContext question db ;;
         result <- generateContent (buildPrompt question relevantData) ;;
         answer <- answerOf result ;;
         Ok (ok (shapeResponse answer relevantData))
       end
     end)
    (fun _ =>
       fail 500 (ErrorText (u "Không thể xử lý yêu cầu. Vui lòng thử lại."))).

End Handlers.

End Server.

(** ** The legacy server: the variant without Word support

    Its schema has no [fileType], [htmlContent] or [imageCount]; its
    [/api/ask] handler has the same guards and queries, another persona line
    and a four-field projection. *)

Module Legacy.

Record document := {
  _id : ObjectId;
  title : jstring;
  content : jstring;
  date : jstring;
  createdAt : Z
}.

Definition collection := list document.

Record reference := {
  id : ObjectId;
  r_title : jstring;
  r_content : jstring;
  r_date : jstring
}.

Inductive body :=
| ErrorText (message : jstring)
| Answer (answer : jstring) (references : list reference).

Record response := { status : nat; json : body }.

Definition ok (b : body) : response := {| status := 200; json := b |}.
Definition fail (n : nat) (b : body) : response := {| status := n; json := b |}.

Definition tryCatch (block : exc response) (handler : error -> response)
  : response :=
  match block with
  | Ok r => r
  | Throw e => handler e
  end.

Section Handlers.
Context {P : Platform}.

Definition toReference (item : document) : reference :=
  {| id := _id item; r_title := title item; r_content := content item;
     r_date := date item |}.

Definition selectContext (question : jstring) (db : collection)
  : exc (list document) :=
  regex <- RegExp.construct (Server.escapeRegex question) (u "i") ;;
  let relevantData :=
    Mongo.limit 6
      (Mongo.find (fun d => Mongo.regexMatch regex (title d)
                            || Mongo.regexMatch regex (content d)) db) in
  if (length relevantData =? 0)%nat
  then Ok (Mongo.limit 6 (Mongo.sortDesc createdAt db))
  else Ok relevantData.

(** The string literals of this file are its own, character for character:
    the file holds its Vietnamese text encoded twice, and these are the
    strings that its server builds and sends. *)
Definition renderItem (item : document) (index : nat) : jstring :=
  u "Má»¥c " ++ numberToString (Z.of_nat index + 1) ++ u ": " ++ title item
  ++ Server.nl ++ u "NgÃ y lÆ°u: " ++ date item
  ++ Server.nl ++ u "Ná»™i dung: " ++ content item.

Definition renderContext (relevantData : list document) : jstring :=
  join (Server.nl ++ Server.nl) (mapi renderItem relevantData).

Definition promptLines (context question : jstring) : list jstring :=
  [ u "Báº¡n lÃ  trá»£ lÃ½ AI há»— trá»£ báº§u cá»­ PhÆ°á»ng HoÃ i NhÆ¡n Báº¯c.";
    u "LuÃ´n tráº£ lá»i báº±ng tiáº¿ng Viá»‡t, chá»‰ sá»­ dá»¥ng thÃ´ng tin trong dá»¯ liá»‡u Ä‘Æ°á»£c cung cáº¥p.";
    u "Náº¿u dá»¯ liá»‡u khÃ´ng Ä‘á»§, hÃ£y nÃ³i rÃµ vÃ  gá»£i Ã½ ngÆ°á»i dÃ¹ng kiá»ƒm tra láº¡i sau.";
    u "Dá»¯ liá»‡u:";
    context;
    u "CÃ¢u há»i: " ++ question;
    u "CÃ¢u tráº£ lá»i chi tiáº¿t:" ].

Definition noDataPlaceholder : jstring := u "KhÃ´ng cÃ³ dá»¯ liá»‡u".

Definition contextOr (context : jstring) : jstring :=
  match context with
  | [] => noDataPlaceholder
  | _ => context
  end.

Definition buildPrompt (question : jstring) (relevantData : list document)
  : jstring :=
  join (Server.nl ++ Server.nl)
    (promptLines (contextOr (renderContext relevantData)) question).

Definition fallbackAnswer : jstring :=
  u "TÃ´i chÆ°a tÃ¬m tháº¥y thÃ´ng tin phÃ¹ há»£p trong dá»¯ liá»‡u hiá»‡n cÃ³.".

Definition shapeResponse (answer : jstring) (relevantData : list document)
  : body :=
  Answer
    (if match answer with [] => false | _ => true end
        && (0 <? length (trim answer))%nat
     then answer else fallbackAnswer)
    (map toReference relevantData).

Definition post_api_ask (geminiModel : option Gemini.GenerativeModel)
  (db : collection) (q : value) : response :=
  tryCatch
    (match geminiModel with
     | None => Ok (fail 500 (ErrorText (u "Thiáº¿u cáº¥u hÃ¬nh Gemini API")))
     | Some generateContent =>
       question <- Server.questionOf q ;;
       match question with
       | [] => Ok (fail 400 (ErrorText (u "Vui lÃ²ng nháº­p cÃ¢u há»i")))
       | _ =>
         relevantData <- selectContext question db ;;
         result <- generateContent (buildPrompt question relevantData) ;;
         answer <- Server.answerOf result ;;
         Ok (ok (shapeResponse answer relevantData))
       end
     end)
    (fun _ =>
       fail 500 (ErrorText (u "KhÃ´ng thá»ƒ xá»­ lÃ½ yÃªu cáº§u. Vui lÃ²ng thá»­ láº¡i."))).

End Handlers.

End Legacy.

(** ** The specification's vocabulary *)

Module Spec.

Section Literal.
Context {P : Platform}.

(** [w] occurs in [s] as a literal substring, up to the engine's case
    folding. *)
Definition occursIn (w s : jstring) : Prop :=
  exists pre mid post,
    s = pre ++ mid ++ post /\ map canonicalize mid = map canonicalize w.

Fixpoint prefixCI (w s : jstring) : bool :=
  match w, s with
  | [], _ => true
  | _ :: _, [] => false
  | c :: w', d :: s' => (canonicalize c =? canonicalize d)%N && prefixCI w' s'
  end.

Fixpoint containsCI (w s : jstring) : bool :=
  prefixCI w s ||
  match s with
  | [] => false
  | _ :: s' => containsCI w s'
  end.

(** A document is a literal match of the question when its title or its
    content contains the question. *)
Definition literalMatch (question : jstring) (d : Mongo.document) : Prop :=
  occursIn question (Mongo.title d) \/ occursIn question (Mongo.content d).

Definition literalMatchb (question : jstring) (d : Mongo.document) : bool :=
  containsCI question (Mongo.title d) || containsCI question (Mongo.content d).

End Literal.

(** The pattern that matches the code units of [w] one after the other. *)
Definition literal (w : jstring) : RegExp.node :=
  fold_right (fun c r => RegExp.Seq (RegExp.Char c) r) RegExp.Empty w.

(** Newest first: [a] may stand before [b]. *)
Definition newerFirst {A} (key : A -> Z) (a b : A) : Prop :=
  (key b <= key a)%Z.

(** Empty, or made of white space only. *)
Definition blank (s : jstring) : Prop :=
  Forall (fun c => isWhiteSpace c = true) s.

(** The line feed, and the blank line that separates two parts. *)
Definition newline : jstring := [10%N].
Definition blankLine : jstring := [10%N; 10%N].

(** The numbered block of a document: index, title, display date, content. *)
Definition block (index : nat) (d : Mongo.document) : jstring :=
  u "Mục " ++ numberToString (Z.of_nat index + 1) ++ u ": " ++ Mongo.title d
  ++ newline ++ u "Ngày lưu: " ++ Mongo.date d
  ++ newline ++ u "Nội dung: " ++ Mongo.content d.

(** The line that tells how many images a Word document embeds, the count
    written as JavaScript writes a Number. *)
Definition annotation (d : Mongo.document) : jstring :=
  newline ++ u "(Tài liệu Word có "
  ++ numberToString (Mongo.imageCount d) ++ u " hình ảnh)".

Definition annotated (d : Mongo.document) : Prop :=
  Mongo.fileType d = Mongo.word /\ (0 < Mongo.imageCount d)%Z.

(** The errors that the schema raises on a document. *)
Definition jsError (e : error) : Prop :=
  e = CastError \/ e = ValidationError.

(** Every stored text document has no rendered markup. *)
Definition textHasNoHtml (db : Mongo.collection) : Prop :=
  forall d, In d db ->
    Mongo.fileType d = Mongo.text -> Mongo.htmlContent d = None.

(** A platform to run the definitions on: ASCII case folding, decimal
    numerals, 24 hexadecimal digits for an ObjectId. *)
Definition asciiUpper (c : N) : N :=
  if ((97 <=? c) && (c <=? 122))%N then (c - 32)%N else c.

Definition digitOf (base c : N) : option N :=
  let d :=
    if ((48 <=? c) && (c <=? 57))%N then Some (c - 48)%N
    else if ((97 <=? c) && (c <=? 102))%N then Some (c - 87)%N
    else if ((65 <=? c) && (c <=? 70))%N then Some (c - 55)%N
    else None in
  match d with
  | Some v => if (v <? base)%N then Some v else None
  | None => None
  end.

Fixpoint numeral (base : N) (acc : N) (s : jstring) : option N :=
  match s with
  | [] => Some acc
  | c :: s' =>
    match digitOf base c with
    | Some v => numeral base (acc * base + v)%N s'
    | None => None
    end
  end.

Definition asciiPlatform : Platform :=
  {| canonicalize := asciiUpper;
     stringToNumber s :=
       match s with
       | [] => Some 0%Z
       | _ => option_map Z.of_N (numeral 10 0 s)
       end;
     parseObjectId s :=
       if (length s =? 24)%nat then numeral 16 0 s else None |}.

End Spec.

(** ** Sample data *)

Module Samples.
Import Mongo.

Definition entry (i : N) (t c : string) (created : Z) : document :=
  {| _id := i; title := u t; content := u c; fileType := text;
     htmlContent := None; imageCount := 0%Z;
     date := u "08:00:00 1/3/2025"; createdAt := created |}.

Definition meeting : document := entry 1%N "Lịch họp" "Họp vào thứ 2" 100%Z.

Definition report : document :=
  {| _id := 2%N; title := u "Báo cáo quý"; content := u "Số liệu a.b*c";
     fileType := word; htmlContent := Some (u "<p>Số liệu</p>");
     imageCount := 3%Z; date := u "09:30:00 2/3/2025"; createdAt := 200%Z |}.

Definition corpus : collection := [meeting; report].

(** Seven entries, stored in an order that is not their age. *)
Definition archive : collection :=
  [ entry 11%N "mot" "a" 30%Z; entry 12%N "hai" "b" 10%Z; entry 13%N "ba" "c" 70%Z;
    entry 14%N "bon" "d" 50%Z; entry 15%N "nam" "e" 20%Z; entry 16%N "sau" "f" 60%Z;
    entry 17%N "bay" "g" 40%Z ].

Definition today : clock :=
  {| freshId := 99%N; now := 300%Z; nowLocale := u "10:00:00 3/3/2025" |}.

(** A generation client that always answers the same text. *)
Definition parrot (answer : string) : Gemini.GenerativeModel :=
  fun _ =>
    Ok (Some {| Gemini.response :=
                  Some {| Gemini.text := Some (Ok (u answer)) |} |}).

End Samples.

(** ** The listing route of the current server: GET /api/data *)

Module Routes.
Import Mongo Http.

(** The projection of the listing. [item.fileType || 'text'] keeps a file
    type, which is never a falsy string; [item.imageCount || 0] turns a
    count of 0 into 0. *)
Definition formatItem (item : document) : reference :=
  {| id := _id item; r_title := title item; r_content := content item;
     r_fileType := fileType item;
     r_htmlContent := htmlContent item;
     r_imageCount :=
       if (imageCount item =? 0)%Z then 0%Z else imageCount item;
     r_date := date item |}.

(** [ChatData.find().sort({ createdAt: -1 })], projected. The answer has
    status 200. *)
Definition get_api_data (db : collection) : list reference :=
  map formatItem (sortDesc createdAt (find (fun _ => true) db)).

End Routes.

(** ** The carousel routes *)

Module Carousel.

(** CarouselImageSchema. [alt] is [None] when the request sent [null]. *)
Record image := {
  _id : ObjectId;
  title : jstring;
  imageUrl : jstring;
  alt : option jstring;
  order : Z;
  createdAt : Z
}.

Definition collection := list image.

(** The object handed to [new CarouselImage(...)]. *)
Record fields := {
  f_title : value;
  f_imageUrl : value;
  f_alt : value;
  f_order : value
}.

(** [{ type: String, default: '' }]. *)
Definition castAlt (v : value) : exc (option jstring) :=
  match v with
  | Undefined => Ok (Some [])
  | _ => Mongo.castString v
  end.

Definition validate {P : Platform} (k : Mongo.clock) (f : fields)
  : exc image :=
  t <- Mongo.requiredString (f_title f) ;;
  url <- Mongo.requiredString (f_imageUrl f) ;;
  a <- castAlt (f_alt f) ;;
  o <- Mongo.castNumber (f_order f) ;;
  Ok {| _id := Mongo.freshId k; title := t; imageUrl := url; alt := a;
        order := o; createdAt := Mongo.now k |}.

Definition save (i : image) (db : collection) : collection := db ++ [i].

(** [.sort({ order: 1 })]: ascending, images with equal keys keep their
    natural order. *)
Definition sortAsc (key : image -> Z) (c : collection) : collection :=
  Mongo.sortDesc (fun i => (- key i)%Z) c.

Inductive body :=
| ErrorText (message : jstring)
| ErrorOf (e : error)
| Message (message : jstring)
| Images (l : list image)
| Image (i : image)
| Uploaded (message : jstring) (data : image).   (* success: true *)

Record response := { status : nat; json : body }.

Definition ok (b : body) : response := {| status := 200; json := b |}.
Definition fail (n : nat) (b : body) : response := {| status := n; json := b |}.

(** The files on the disk: a path and a content each. The content of a file
    written from base64 data is kept as that data, undecoded. *)
Definition disk := list (jstring * jstring).

(** [fs.unlink]: a path that does not exist is left alone (the error goes to
    the callback). *)
Definition unlink (p : jstring) (d : disk) : disk :=
  filter (fun file => negb (codeUnitsEq (fst file) p)) d.

(** [fs.writeFileSync]: creates the file or replaces its content. *)
Definition writeFile (p content : jstring) (d : disk) : disk :=
  (p, content) :: unlink p d.

(** [s.startsWith(prefix)]. *)
Fixpoint startsWith (prefix s : jstring) : bool :=
  match prefix, s with
  | [], _ => true
  | _ :: _, [] => false
  | c :: prefix', d :: s' => (c =? d)%N && startsWith prefix' s'
  end.

Fixpoint dropPrefix (prefix s : jstring) : option jstring :=
  match prefix, s with
  | [], _ => Some s
  | _ :: _, [] => None
  | c :: prefix', d :: s' => if (c =? d)%N then dropPrefix prefix' s' else None
  end.

(** The class [\w]. *)
Definition isWord (c : N) : bool :=
  ((48 <=? c) && (c <=? 57) || (65 <=? c) && (c <=? 90)
   || (97 <=? c) && (c <=? 122) || (c =? 95))%N.

Fixpoint dropWord (s : jstring) : jstring :=
  match s with
  | c :: s' => if isWord c then dropWord s' else s
  | [] => []
  end.

(** [imageData.replace(/^data:image\/\w+;base64,/, '')]: the longest run of
    word characters is the only one that [;] can follow. *)
Definition stripDataUrl (imageData : jstring) : jstring :=
  match dropPrefix (u "data:image/") imageData with
  | Some (c :: rest) =>
    if isWord c then
      match dropPrefix (u ";base64,") (dropWord rest) with
      | Some base64Data => base64Data
      | None => imageData
      end
    else imageData
  | _ => imageData
  end.

(** [req.file], as the upload middleware leaves it. *)
Record uploaded := { filename : jstring; path : jstring }.

Record uploadBody := {
  b_title : value;
  b_imageUrl : value;     (* POST /api/carousel *)
  b_imageData : value;    (* POST /api/carousel/upload-base64 *)
  b_alt : value;
  b_order : value
}.

Section Handlers.
Context {P : Platform}.

(** The server's directory and [path.join]. *)
Variable dirname : jstring.
Variable pathJoin : jstring -> jstring -> jstring.

Definition uploadDir : jstring := pathJoin dirname (u "uploads").

(** GET /api/carousel *)
Definition get_api_carousel (db : collection) : response :=
  ok (Images (sortAsc order db)).

(** POST /api/carousel *)
Definition post_api_carousel (k : Mongo.clock) (db : collection)
  (b : uploadBody) : response * collection :=
  match validate k {| f_title := b_title b; f_imageUrl := b_imageUrl b;
                      f_alt := b_alt b;
                      f_order := JS.or (b_order b) (Num 0) |} with
  | Ok newImage => (ok (Image newImage), save newImage db)
  | Throw err => (fail 400 (ErrorOf err), db)
  end.

(** What both upload routes hand to the schema. *)
Definition uploadFields (b : uploadBody) (name : jstring) : fields :=
  {| f_title := JS.or (b_title b) (Str (u "Untitled"));
     f_imageUrl := Str (u "/uploads/" ++ name);
     f_alt := JS.or (b_alt b) (Str []);
     f_order := JS.or (b_order b) (Num 0) |}.

(** POST /api/carousel/upload: the middleware has stored the file already;
    when the record cannot be saved the file is removed again. *)
Definition post_api_carousel_upload (k : Mongo.clock) (db : collection)
  (d : disk) (file : option uploaded) (b : uploadBody)
  : response * collection * disk :=
  match file with
  | None => (fail 400 (ErrorText (u "No image file provided")), db, d)
  | Some f =>
    match validate k (uploadFields b (filename f)) with
    | Ok newImage =>
      (ok (Uploaded (u "Image uploaded successfully") newImage),
       save newImage db, d)
    | Throw err => (fail 400 (ErrorOf err), db, unlink (path f) d)
    end
  end.

(** The name of a file written from base64 data, from [Date.now()] and the
    rounded random number. *)
Definition base64Name (stamp random : Z) : jstring :=
  u "base64-" ++ numberToString stamp ++ u "-" ++ numberToString random
  ++ u ".png".

(** POST /api/carousel/upload-base64: the file is written before the record
    is validated. An [imageData] that is not a string has no [replace]. *)
Definition post_api_carousel_upload_base64 (k : Mongo.clock)
  (stamp random : Z) (db : collection) (d : disk) (b : uploadBody)
  : response * collection * disk :=
  if negb (truthy (b_imageData b)) then
    (fail 400 (ErrorText (u "No image data provided")), db, d)
  else
    match b_imageData b with
    | Str imageData =>
      let base64Data := stripDataUrl imageData in
      let name := base64Name stamp random in
      let written := writeFile (pathJoin uploadDir name) base64Data d in
      match validate k (uploadFields b name) with
      | Ok newImage =>
        (ok (Uploaded (u "Image uploaded successfully") newImage),
         save newImage db, written)
      | Throw err => (fail 400 (ErrorOf err), db, written)
      end
    | _ => (fail 400 (ErrorOf TypeError), db, d)
    end.

(** DELETE /api/carousel/:id: the file goes with the record when the URL of
    the record is a local one. *)
Definition delete_api_carousel (db : collection) (d : disk)
  (idParam : jstring) : response * collection * disk :=
  match parseObjectId idParam with
  | None => (fail 500 (ErrorOf CastError), db, d)
  | Some oid =>
    let r := Mongo.findByIdAndDelete _id oid db in
    (ok (Message (u "Deleted successfully")), snd r,
     match fst r with
     | Some image =>
       if match imageUrl image with [] => false | _ => true end
          && startsWith (u "/uploads/") (imageUrl image)
       then unlink (pathJoin dirname (imageUrl image)) d
       else d
     | None => d
     end)
  end.

End Handlers.

End Carousel.

(** ** The migration script: [src/migrate-data.js] *)

Module Migrate.

(** How an entry holds its file type in the store. *)
Inductive storedFileType :=
| Missing                        (* the entry has no such field *)
| IsNull                         (* the field is null *)
| Empty                          (* the field is the empty string *)
| Stored (t : Mongo.FileType).

(** A stored entry. [htmlContent] and [imageCount] are given as the script's
    schema reads them, null and 0 standing in for a field that is not
    there; the title and the content are the ones the entry was stored
    with. *)
Record document := {
  _id : ObjectId;
  title : jstring;
  content : jstring;
  fileType : storedFileType;
  htmlContent : option jstring;
  imageCount : Z;
  date : jstring;
  createdAt : Z
}.

(** [doc.fileType] as the script reads it through its schema
    [{ type: String, enum: ['text', 'word'], default: 'text' }]: the default
    stands in for a field that is missing, not for one that is null. [None]
    is a falsy value. *)
Definition readFileType (f : storedFileType) : option Mongo.FileType :=
  match f with
  | Missing => Some Mongo.text
  | IsNull | Empty => None
  | Stored t => Some t
  end.

(** The three assignments to a document that needs migration, saved. *)
Definition withDefaults (doc : document) : document :=
  {| _id := _id doc; title := title doc; content := content doc;
     fileType := Stored Mongo.text; htmlContent := None; imageCount := 0%Z;
     date := date doc; createdAt := createdAt doc |}.

(** The loop of [migrateData]: the collection after the saves, and
    [migratedCount]. A document that is skipped is not saved. *)
Fixpoint migrateLoop (allData : list document) (migratedCount : nat)
  : list document * nat :=
  match allData with
  | [] => ([], migratedCount)
  | doc :: rest =>
    match readFileType (fileType doc) with
    | None =>
      let r := migrateLoop rest (S migratedCount) in
      (withDefaults doc :: fst r, snd r)
    | Some _ =>
      let r := migrateLoop rest migratedCount in
      (doc :: fst r, snd r)
    end
  end.

(** What the script prints at the end. *)
Record report := { total : nat; migrated : nat; alreadyMigrated : nat }.

Definition migrateData (allData : list document) : list document * report :=
  let r := migrateLoop allData 0 in
  (fst r,
   {| total := length allData; migrated := snd r;
      alreadyMigrated := length allData - snd r |}).

(** The script's test [!doc.fileType]. *)
Definition needsMigration (doc : document) : bool :=
  match readFileType (fileType doc) with
  | None => true
  | Some _ => false
  end.

(** Every document that reads as a text document has no rendered markup. *)
Definition textHasNoHtml (db : list document) : Prop :=
  forall d, In d db ->
    readFileType (fileType d) = Some Mongo.text -> htmlContent d = None.

End Migrate.

(** ** The two versions side by side *)

Module Versions.

(** A document of the current server, as the legacy server stores it. *)
Definition forget (d : Mongo.document) : Legacy.document :=
  {| Legacy._id := Mongo._id d; Legacy.title := Mongo.title d;
     Legacy.content := Mongo.content d; Legacy.date := Mongo.date d;
     Legacy.createdAt := Mongo.createdAt d |}.

Definition forgetReference (r : Http.reference) : Legacy.reference :=
  {| Legacy.id := Http.id r; Legacy.r_title := Http.r_title r;
     Legacy.r_content := Http.r_content r; Legacy.r_date := Http.r_date r |}.

End Versions.

(** ** More sample data *)

Module MoreSamples.

(** A note with a title and a content, and nothing else. *)
Definition note : Server.dataBody :=
  {| Server.b_title := Str (u "Ghi chú");
     Server.b_content := Str (u "Nội dung");
     Server.b_fileType := Undefined;
     Server.b_htmlContent := Undefined;
     Server.b_imageCount := Undefined |}.

Definition storedNote : Mongo.document :=
  {| Mongo._id := 99%N; Mongo.title := u "Ghi chú";
     Mongo.content := u "Nội dung"; Mongo.fileType := Mongo.text;
     Mongo.htmlContent := None; Mongo.imageCount := 0%Z;
     Mongo.date := u "10:00:00 3/3/2025"; Mongo.createdAt := 300%Z |}.

(** The identifier 99, as a route parameter. *)
Definition param99 : jstring := u "000000000000000000000063".

(** An entry stored before Word support, with no file type; one whose file
    type was stored as null; and one stored with Word support. *)
Definition oldEntry : Migrate.document :=
  {| Migrate._id := 21%N; Migrate.title := u "Thông báo";
     Migrate.content := u "Nghỉ lễ"; Migrate.fileType := Migrate.Missing;
     Migrate.htmlContent := None; Migrate.imageCount := 0%Z;
     Migrate.date := u "07:00:00 1/1/2024"; Migrate.createdAt := 5%Z |}.

Definition nullEntry : Migrate.document :=
  {| Migrate._id := 23%N; Migrate.title := u "Lịch tiếp dân";
     Migrate.content := u "Thứ 5"; Migrate.fileType := Migrate.IsNull;
     Migrate.htmlContent := Some (u "<p>Thứ 5</p>");
     Migrate.imageCount := 2%Z;
     Migrate.date := u "07:00:00 1/6/2024"; Migrate.createdAt := 20%Z |}.

Definition newEntry : Migrate.document :=
  {| Migrate._id := 22%N; Migrate.title := u "Biểu mẫu";
     Migrate.content := u "Đơn đăng ký";
     Migrate.fileType := Migrate.Stored Mongo.word;
     Migrate.htmlContent := Some (u "<p>Đơn</p>"); Migrate.imageCount := 1%Z;
     Migrate.date := u "07:00:00 1/1/2025"; Migrate.createdAt := 50%Z |}.

(** A banner sent as base64 data. *)
Definition banner : Carousel.uploadBody :=
  {| Carousel.b_title := Str (u "Banner");
     Carousel.b_imageUrl := Undefined;
     Carousel.b_imageData := Str (u "data:image/png;base64,iVBORw0KGgo=");
     Carousel.b_alt := Undefined;
     Carousel.b_order := Undefined |}.

(** A banner registered by its URL on another host. *)
Definition linked : Carousel.uploadBody :=
  {| Carousel.b_title := Str (u "Banner");
     Carousel.b_imageUrl := Str (u "https://example.org/banner.png");
     Carousel.b_imageData := Undefined;
     Carousel.b_alt := Undefined;
     Carousel.b_order := Undefined |}.

(** The record and the file of the banner, written at instant 1700000000000
    with the random number 42. *)
Definition storedBanner : Carousel.image :=
  {| Carousel._id := 99%N; Carousel.title := u "Banner";
     Carousel.imageUrl := u "/uploads/base64-1700000000000-42.png";
     Carousel.alt := Some []; Carousel.order := 0%Z;
     Carousel.createdAt := 300%Z |}.

Definition bannerFile : jstring * jstring :=
  (u "/srv/app/uploads/base64-1700000000000-42.png", u "iVBORw0KGgo=").

Definition serverDir : jstring := u "/srv/app".

(** Joining two clean segments. *)
Definition joinPath (a b : jstring) : jstring :=
  match b with
  | 47%N :: _ => a ++ b
  | _ => a ++ u "/" ++ b
  end.

End MoreSamples.

(** * Properties *)

Import Spec.

Unset Implicit Arguments.

(** ** Strings *)

Example u_ascii : u "a.b*c" = [97; 46; 98; 42; 99]%N.
Proof. reflexivity. Qed.

Example u_vietnamese : u "Lịch" = [76; 7883; 99; 104]%N.
Proof. reflexivity. Qed.

Example trim_spaces : trim (u "   ") = [].
Proof. reflexivity. Qed.

Example join_three : join (u ", ") [u "a"; u "b"; u "c"] = u "a, b, c".
Proof. reflexivity. Qed.

Example numberToString_12 : numberToString 12 = u "12".
Proof. reflexivity. Qed.

Example trim_inner : trim (u "  lịch  họp ") = u "lịch  họp".
Proof. reflexivity. Qed.

Example trim_no_break_space : trim [160; 97; 65279]%N = u "a".
Proof. reflexivity. Qed.

Example escapeRegex_sample : Server.escapeRegex (u "a.b*c\") = u "a\.b\*c\\".
Proof. reflexivity. Qed.

(** Numbers as JavaScript writes them: every digit up to 2^53, the shortest
    digits that give the Number back beyond, the exponent form from 1e21. *)
Example numberToString_samples :
  map numberToString
    [0; 7; -5; 1700000000000; 9007199254740992; 9007199254740993;
     73786976294838206464; 999999999999999999999; 1000000000000000000000;
     1180591620717411303424; 100000000000000000000000;
     123456789012345678901234567890; - 1180591620717411303424;
     10 ^ 400]%Z
  = map u
      ["0"; "7"; "-5"; "1700000000000"; "9007199254740992";
       "9007199254740992"; "73786976294838210000"; "1e+21"; "1e+21";
       "1.1805916207174113e+21"; "1e+23"; "1.2345678901234568e+29";
       "-1.1805916207174113e+21"; "Infinity"]%string.
Proof. vm_compute. reflexivity. Qed.

(** ** Escaping *)

Ltac split_code_unit c n :=
  destruct (N.eqb_spec c n) as [->|]; [reflexivity|].

Ltac each_syntax_character c :=
  split_code_unit c 46%N; split_code_unit c 42%N; split_code_unit c 43%N;
  split_code_unit c 63%N; split_code_unit c 94%N; split_code_unit c 36%N;
  split_code_unit c 123%N; split_code_unit c 125%N; split_code_unit c 40%N;
  split_code_unit c 41%N; split_code_unit c 124%N; split_code_unit c 91%N;
  split_code_unit c 93%N; split_code_unit c 92%N.

Ltac no_code_unit_left :=
  repeat match goal with
         | H : ?c <> ?n |- context [(?c =? ?n)%N] =>
           rewrite (proj2 (N.eqb_neq c n) H)
         end.

Lemma isEscaped_syntax c : Server.isEscaped c = RegExp.isSyntaxCharacter c.
Proof.
  each_syntax_character c.
  unfold Server.isEscaped, RegExp.isSyntaxCharacter.
  change (u ".*+?^${}()|[]\")
    with [46; 42; 43; 63; 94; 36; 123; 125; 40; 41; 124; 91; 93; 92]%N.
  change (u "^$\.*+?()[]{}|")
    with [94; 36; 92; 46; 42; 43; 63; 40; 41; 91; 93; 123; 125; 124]%N.
  cbn [existsb]. no_code_unit_left. reflexivity.
Qed.

Lemma not_escaped_plain c :
  Server.isEscaped c = false ->
  (c =? RegExp.backslash)%N = false /\ RegExp.tokenOf c = RegExp.TChar c.
Proof.
  unfold Server.isEscaped, RegExp.tokenOf, RegExp.backslash.
  change (u ".*+?^${}()|[]\")
    with [46; 42; 43; 63; 94; 36; 123; 125; 40; 41; 124; 91; 93; 92]%N.
  cbn [existsb]. intros H.
  repeat (apply orb_false_iff in H; destruct H as [? H]).
  repeat match goal with
         | E : (_ =? _)%N = false |- _ => rewrite E; clear E
         end.
  split; reflexivity.
Qed.

Lemma lex_escapeRegex q :
  RegExp.lex (Server.escapeRegex q) = Ok (map RegExp.TChar q).
Proof.
  induction q as [|c q IH]; [reflexivity|].
  cbn [Server.escapeRegex]. destruct (Server.isEscaped c) eqn:E.
  - cbn [RegExp.lex]. rewrite N.eqb_refl, IH. cbn [bind].
    rewrite <- isEscaped_syntax, E. reflexivity.
  - destruct (not_escaped_plain c E) as [Hb Ht].
    cbn [RegExp.lex]. rewrite Hb, IH. cbn [bind]. rewrite Ht. reflexivity.
Qed.

(** ** Parsing and matching a literal pattern *)

Lemma quantifier_before_char a q :
  RegExp.quantifier a (map RegExp.TChar q) = Ok (a, map RegExp.TChar q).
Proof. destruct q; reflexivity. Qed.

Lemma parseTerm_char f c ts :
  RegExp.parseTerm (S f) (RegExp.TChar c :: ts)
  = RegExp.quantifier (RegExp.Char c) ts.
Proof. reflexivity. Qed.

Lemma parseAlternative_char f c ts :
  RegExp.parseAlternative (S f) (RegExp.TChar c :: ts)
  = (t <- RegExp.parseTerm f (RegExp.TChar c :: ts) ;;
     a <- RegExp.parseAlternative f (snd t) ;;
     Ok (RegExp.Seq (fst t) (fst a), snd a)).
Proof. reflexivity. Qed.

Lemma parseAlternative_literal q :
  forall fuel, (length q < fuel)%nat ->
    RegExp.parseAlternative fuel (map RegExp.TChar q) = Ok (literal q, []).
Proof.
  induction q as [|c q IH]; intros fuel Hf.
  - destruct fuel; [inversion Hf|reflexivity].
  - destruct fuel as [|[|f]]; cbn [length] in Hf; try lia.
    cbn [map].
    rewrite parseAlternative_char, parseTerm_char, quantifier_before_char.
    cbn [bind fst snd]. rewrite IH by lia. reflexivity.
Qed.

Lemma parsePattern_escapeRegex q :
  RegExp.parsePattern (Server.escapeRegex q) = Ok (literal q).
Proof.
  unfold RegExp.parsePattern. rewrite lex_escapeRegex. cbn [bind].
  replace (3 * length (map RegExp.TChar q) + 3)%nat
    with (S (3 * length q + 2)) by (rewrite length_map; lia).
  cbn [RegExp.parseDisjunction].
  rewrite parseAlternative_literal by lia. reflexivity.
Qed.

Lemma construct_escapeRegex q :
  RegExp.construct (Server.escapeRegex q) (u "i")
  = Ok {| RegExp.source := literal q; RegExp.ignoreCase := true |}.
Proof.
  unfold RegExp.construct. change (RegExp.parseFlags (u "i")) with (Ok true).
  cbn [bind]. rewrite parsePattern_escapeRegex. reflexivity.
Qed.

Section LiteralMatching.
Context {P : Platform}.

Lemma matchNode_literal_all w :
  forall n st s,
    RegExp.matchNode true (literal w) n st s (fun _ _ => true)
    = prefixCI w s.
Proof.
  induction w as [|c w IH]; intros n st s; [reflexivity|].
  destruct s as [|d s]; [reflexivity|].
  cbn. rewrite IH. reflexivity.
Qed.

Lemma searchFrom_literal w s :
  forall st,
    RegExp.searchFrom
      {| RegExp.source := literal w; RegExp.ignoreCase := true |} st s
    = containsCI w s.
Proof.
  induction s as [|d s IH]; intros st.
  - cbn [RegExp.searchFrom containsCI]. unfold RegExp.matchAt.
    cbn [RegExp.source RegExp.ignoreCase].
    rewrite matchNode_literal_all. reflexivity.
  - cbn [RegExp.searchFrom containsCI]. unfold RegExp.matchAt.
    cbn [RegExp.source RegExp.ignoreCase].
    rewrite matchNode_literal_all, IH. reflexivity.
Qed.

Lemma prefixCI_spec w s :
  prefixCI w s = true <->
  exists mid post, s = mid ++ post /\ map canonicalize mid = map canonicalize w.
Proof.
  revert s. induction w as [|c w IH]; intros s.
  - split; [intros _; exists [], s; auto|reflexivity].
  - destruct s as [|d s]; cbn [prefixCI].
    + split; [discriminate|]. intros (mid & post & E & Hm).
      destruct mid; [discriminate Hm|discriminate E].
    + rewrite andb_true_iff, N.eqb_eq, IH. split.
      * intros (Hc & mid & post & -> & Hm).
        exists (d :: mid), post. cbn [map]. rewrite Hm, Hc. auto.
      * intros (mid & post & E & Hm).
        destruct mid as [|m mid]; [discriminate Hm|].
        cbn in E, Hm. injection E as -> ->. injection Hm as Hc Hm.
        split; [congruence|]. exists mid, post. auto.
Qed.

Lemma containsCI_spec w s : containsCI w s = true <-> occursIn w s.
Proof.
  unfold occursIn. induction s as [|d s IH]; cbn [containsCI].
  - rewrite orb_false_r, prefixCI_spec. split.
    + intros (mid & post & E & Hm). exists [], mid, post. auto.
    + intros (pre & mid & post & E & Hm).
      destruct pre; [|discriminate E]. exists mid, post. auto.
  - rewrite orb_true_iff, prefixCI_spec, IH. split.
    + intros [(mid & post & E & Hm)|(pre & mid & post & E & Hm)].
      * exists [], mid, post. auto.
      * exists (d :: pre), mid, post. rewrite E. auto.
    + intros (pre & mid & post & E & Hm). destruct pre as [|p pre].
      * left. exists mid, post. auto.
      * right. injection E as -> ->. exists pre, mid, post. auto.
Qed.

Lemma test_escaped w s re :
  RegExp.construct (Server.escapeRegex w) (u "i") = Ok re ->
  RegExp.test re s = containsCI w s.
Proof.
  rewrite construct_escapeRegex. intros [= <-].
  apply searchFrom_literal.
Qed.

End LiteralMatching.

(** ** Sorting newest first *)

Section SortDesc.
Context {A : Type}.
Variable key : A -> Z.

Lemma insertDesc_perm d l : Permutation (Mongo.insertDesc key d l) (d :: l).
Proof.
  induction l as [|x l IH]; cbn [Mongo.insertDesc]; [reflexivity|].
  destruct (key x <=? key d)%Z; [reflexivity|].
  rewrite IH. apply perm_swap.
Qed.

Lemma sortDesc_perm l : Permutation (Mongo.sortDesc key l) l.
Proof.
  induction l as [|x l IH]; cbn; [constructor|].
  fold (Mongo.sortDesc key l). rewrite insertDesc_perm. now constructor.
Qed.

Lemma insertDesc_sorted d l :
  StronglySorted (newerFirst key) l ->
  StronglySorted (newerFirst key) (Mongo.insertDesc key d l).
Proof.
  induction 1 as [|x l Hs IH Hx]; cbn [Mongo.insertDesc].
  - repeat constructor.
  - destruct (key x <=? key d)%Z eqn:E.
    + apply Z.leb_le in E. constructor; [now constructor|].
      constructor; [exact E|].
      eapply Forall_impl; [|exact Hx]. unfold newerFirst. intros; lia.
    + apply Z.leb_gt in E. constructor; [exact IH|].
      eapply Permutation_Forall; [symmetry; apply insertDesc_perm|].
      constructor; [unfold newerFirst; lia|exact Hx].
Qed.

Lemma sortDesc_sorted l : StronglySorted (newerFirst key) (Mongo.sortDesc key l).
Proof.
  induction l as [|x l IH]; cbn; [constructor|].
  now apply insertDesc_sorted.
Qed.

Lemma sorted_split n l :
  StronglySorted (newerFirst key) l ->
  forall a b, In a (firstn n l) -> In b (skipn n l) -> newerFirst key a b.
Proof.
  intros Hs. revert n. induction Hs as [|x l Hs IH Hx]; intros n a b Ha Hb.
  - rewrite firstn_nil in Ha. destruct Ha.
  - destruct n as [|n]; [destruct Ha|]. cbn in Ha, Hb. destruct Ha as [<-|Ha].
    + rewrite Forall_forall in Hx. apply Hx.
      rewrite <- (firstn_skipn n l). apply in_or_app. now right.
    + eapply IH; eassumption.
Qed.

Lemma sorted_firstn n l :
  StronglySorted (newerFirst key) l -> StronglySorted (newerFirst key) (firstn n l).
Proof.
  intros Hs. revert n. induction Hs as [|x l Hs IH Hx]; intros n.
  - rewrite firstn_nil. constructor.
  - destruct n as [|n]; cbn [firstn]; [constructor|].
    constructor; [apply IH|].
    rewrite Forall_forall in *. intros y Hy. apply Hx.
    rewrite <- (firstn_skipn n l). apply in_or_app. now left.
Qed.

End SortDesc.

(** ** Selecting the context *)

Section SelectContext.
Context {P : Platform}.

Lemma literalMatchb_spec q d : literalMatchb q d = true <-> literalMatch q d.
Proof.
  unfold literalMatchb, literalMatch.
  rewrite orb_true_iff, !containsCI_spec. reflexivity.
Qed.

(** What the two queries compute, with the pattern engine out of the way. *)
Lemma selectContext_queries q db :
  Server.selectContext q db =
  Ok (match Mongo.limit 6 (Mongo.find (literalMatchb q) db) with
      | [] => Mongo.limit 6 (Mongo.sortDesc Mongo.createdAt db)
      | matches => matches
      end).
Proof.
  unfold Server.selectContext. rewrite construct_escapeRegex. cbn [bind].
  unfold Mongo.find, Mongo.regexMatch.
  rewrite (filter_ext _ (literalMatchb q)).
  - destruct (Mongo.limit 6 (filter (literalMatchb q) db)); reflexivity.
  - intros d. unfold literalMatchb.
    rewrite !(test_escaped q _ _ (construct_escapeRegex q)). reflexivity.
Qed.

Lemma limit_length A n (l : list A) : (length (Mongo.limit n l) <= n)%nat.
Proof. unfold Mongo.limit. rewrite length_firstn. lia. Qed.

Lemma limit_In A n (l : list A) x : In x (Mongo.limit n l) -> In x l.
Proof.
  unfold Mongo.limit. intros H. rewrite <- (firstn_skipn n l).
  apply in_or_app. now left.
Qed.

End SelectContext.

Section ContextProperties.
Context {P : Platform}.

(** C1: [selectContext] returns at most 6 documents; and when some document
    of the corpus contains the question literally (up to case) in its title
    or content, the result is the first 6 literal matches in natural order:
    it is not empty, every returned document is a literal match, and the
    newest-first fallback is not what is returned. *)
Theorem selectContext_bounded_literal (question : jstring)
  (db : Mongo.collection) :
  exists docs,
    Server.selectContext question db = Ok docs /\
    (length docs <= 6)%nat /\
    ((exists d, In d db /\ literalMatch question d) ->
     docs = Mongo.limit 6 (Mongo.find (literalMatchb question) db) /\
     docs <> [] /\
     forall d, In d docs -> In d db /\ literalMatch question d).
Proof.
  rewrite selectContext_queries.
  set (matches := Mongo.limit 6 (Mongo.find (literalMatchb question) db)).
  assert (Hall : forall x, In x matches -> In x db /\ literalMatch question x).
  { intros x Hx. apply limit_In, filter_In in Hx as [Hdb Hx].
    split; [exact Hdb|now apply literalMatchb_spec]. }
  assert (Hlen : (length matches <= 6)%nat) by apply limit_length.
  eexists; split; [reflexivity|]. split.
  - destruct matches; [apply limit_length|exact Hlen].
  - intros (d & Hin & Hm).
    assert (Hfound : In d (Mongo.find (literalMatchb question) db))
      by (apply filter_In; split; [exact Hin|now apply literalMatchb_spec]).
    assert (Hne : matches <> []).
    { subst matches. destruct (Mongo.find (literalMatchb question) db);
        [destruct Hfound|discriminate]. }
    destruct matches; [now elim Hne|].
    split; [reflexivity|]. split; [discriminate|exact Hall].
Qed.

Lemma find_no_literal_match (question : jstring) (db : Mongo.collection) :
  (forall d, In d db -> ~ literalMatch question d) ->
  Mongo.find (literalMatchb question) db = [].
Proof.
  unfold Mongo.find. induction db as [|x l IH]; intros Hnone; [reflexivity|].
  cbn [filter]. destruct (literalMatchb question x) eqn:Hx.
  - apply literalMatchb_spec in Hx. elim (Hnone x); [now left|exact Hx].
  - apply IH. intros d Hd. apply Hnone. now right.
Qed.

Lemma find_some_literal_match (question : jstring) (db : Mongo.collection) :
  (exists d, In d db /\ literalMatch question d) ->
  Server.selectContext question db
  = Ok (firstn 6 (filter (literalMatchb question) db)) /\
  forall d, In d (firstn 6 (filter (literalMatchb question) db)) ->
    literalMatch question d.
Proof.
  intros (d & Hin & Hm). rewrite selectContext_queries.
  unfold Mongo.find, Mongo.limit.
  assert (Hf : In d (filter (literalMatchb question) db))
    by (apply filter_In; split; [exact Hin|now apply literalMatchb_spec]).
  split.
  - destruct (filter (literalMatchb question) db); [destruct Hf|reflexivity].
  - intros x Hx. apply (limit_In _ 6), filter_In in Hx as [_ Hx].
    now apply literalMatchb_spec.
Qed.

(** C2: whatever the question, metacharacters included, its escaped form is
    a valid pattern, the pattern matches a text exactly when the text
    contains the question as a literal substring (up to case), and
    [selectContext] raises no error and selects by that literal match: when
    some document contains the question literally the result is the first 6
    of the documents that do, in natural order, and a document that only a
    wildcard reading of the question would match is never among them; when
    none does, the result is the newest-first fallback. *)
Theorem escaped_question_matches_literally (question : jstring)
  (db : Mongo.collection) :
  exists re docs,
    RegExp.construct (Server.escapeRegex question) (u "i") = Ok re /\
    (forall s, RegExp.test re s = true <-> occursIn question s) /\
    Server.selectContext question db = Ok docs /\
    (forall d, literalMatchb question d = true <-> literalMatch question d) /\
    ((exists d, In d db /\ literalMatch question d) ->
     docs = firstn 6 (filter (literalMatchb question) db) /\
     forall d, In d docs -> literalMatch question d) /\
    ((forall d, In d db -> ~ literalMatch question d) ->
     docs = firstn 6 (Mongo.sortDesc Mongo.createdAt db)).
Proof.
  exists {| RegExp.source := literal question; RegExp.ignoreCase := true |},
    (match Mongo.limit 6 (Mongo.find (literalMatchb question) db) with
     | [] => Mongo.limit 6 (Mongo.sortDesc Mongo.createdAt db)
     | matches => matches
     end).
  split; [apply construct_escapeRegex|]. split.
  { intros s.
    rewrite (test_escaped question s _ (construct_escapeRegex question)).
    apply containsCI_spec. }
  split; [apply selectContext_queries|].
  split; [intros d; apply literalMatchb_spec|]. split.
  - intros Hsome. destruct (find_some_literal_match question db Hsome)
      as [E Hall].
    pose proof (selectContext_queries question db) as Q. rewrite E in Q.
    assert (Q' : firstn 6 (filter (literalMatchb question) db)
                 = match Mongo.limit 6 (Mongo.find (literalMatchb question) db)
                   with
                   | [] => Mongo.limit 6 (Mongo.sortDesc Mongo.createdAt db)
                   | matches => matches
                   end) by (injection Q as Q; exact Q).
    rewrite <- Q'. split; [reflexivity|exact Hall].
  - intros Hnone. now rewrite (find_no_literal_match question db Hnone).
Qed.

(** C3: when no document of the corpus is a literal match, [selectContext]
    returns min(6, corpus size) documents of the corpus, ordered newest first
    by [createdAt], none of them older than a document left out. *)
Theorem selectContext_fallback_newest (question : jstring)
  (db : Mongo.collection) :
  (forall d, In d db -> ~ literalMatch question d) ->
  exists docs rest,
    Server.selectContext question db = Ok docs /\
    length docs = Nat.min 6 (length db) /\
    Permutation db (docs ++ rest) /\
    StronglySorted (newerFirst Mongo.createdAt) docs /\
    forall a b, In a docs -> In b rest -> newerFirst Mongo.createdAt a b.
Proof.
  intros Hnone. rewrite selectContext_queries.
  assert (E : Mongo.find (literalMatchb question) db = []).
  { unfold Mongo.find. induction db as [|x l IH]; [reflexivity|].
    cbn [filter]. destruct (literalMatchb question x) eqn:Hx.
    - apply literalMatchb_spec in Hx. elim (Hnone x); [now left|exact Hx].
    - apply IH. intros d Hd. apply Hnone. now right. }
  rewrite E. cbn [Mongo.limit firstn].
  exists (firstn 6 (Mongo.sortDesc Mongo.createdAt db)),
         (skipn 6 (Mongo.sortDesc Mongo.createdAt db)).
  split; [reflexivity|]. split.
  - rewrite length_firstn, (Permutation_length (sortDesc_perm Mongo.createdAt db)).
    reflexivity.
  - split; [rewrite firstn_skipn; symmetry; apply sortDesc_perm|]. split.
    + apply sorted_firstn, sortDesc_sorted.
    + apply sorted_split, sortDesc_sorted.
Qed.

End ContextProperties.

Lemma no_literal_match {P : Platform} question (db : Mongo.collection) :
  forallb (fun d => negb (literalMatchb question d)) db = true ->
  forall d, In d db -> ~ literalMatch question d.
Proof.
  rewrite forallb_forall. intros H d Hd Hm.
  apply literalMatchb_spec in Hm. specialize (H d Hd).
  rewrite Hm in H. discriminate H.
Qed.

Lemma selectContext_bounded_literal_witness :
  (exists d, In d Samples.corpus
             /\ literalMatch (P := asciiPlatform) (u "lịch") d) /\
  exists docs,
    Server.selectContext (P := asciiPlatform) (u "lịch") Samples.corpus
    = Ok docs /\ docs <> [].
Proof.
  assert (H : exists d, In d Samples.corpus
                        /\ literalMatch (P := asciiPlatform) (u "lịch") d).
  { exists Samples.meeting. split; [now left|].
    apply literalMatchb_spec. vm_compute. reflexivity. }
  split; [exact H|].
  destruct (selectContext_bounded_literal (P := asciiPlatform)
              (u "lịch") Samples.corpus) as (docs & E & _ & Hlit).
  exists docs. split; [exact E|]. apply (Hlit H).
Defined.

Lemma escaped_question_matches_literally_witness :
  (exists d, In d (Samples.entry 3 "axbbc" "a-b-c" 300 :: Samples.corpus)
             /\ literalMatch (P := asciiPlatform) (u "a.b*c") d) /\
  exists docs,
    Server.selectContext (P := asciiPlatform) (u "a.b*c")
      (Samples.entry 3 "axbbc" "a-b-c" 300 :: Samples.corpus) = Ok docs /\
    docs = firstn 6 (filter (literalMatchb (P := asciiPlatform) (u "a.b*c"))
                       (Samples.entry 3 "axbbc" "a-b-c" 300 :: Samples.corpus))
    /\ docs = [Samples.report].
Proof.
  assert (H : exists d,
             In d (Samples.entry 3 "axbbc" "a-b-c" 300 :: Samples.corpus)
             /\ literalMatch (P := asciiPlatform) (u "a.b*c") d).
  { exists Samples.report. split; [right; right; now left|].
    apply literalMatchb_spec. vm_compute. reflexivity. }
  split; [exact H|].
  destruct (escaped_question_matches_literally (P := asciiPlatform)
              (u "a.b*c") (Samples.entry 3 "axbbc" "a-b-c" 300 :: Samples.corpus))
    as (re & docs & _ & _ & E & _ & Hsome & _).
  destruct (Hsome H) as [Hd _].
  exists docs. split; [exact E|]. split; [exact Hd|].
  rewrite Hd. vm_compute. reflexivity.
Defined.

Lemma selectContext_fallback_newest_witness :
  exists docs rest,
    Server.selectContext (P := asciiPlatform) (u "xyz") Samples.archive
    = Ok docs /\
    length docs = 6%nat /\
    Permutation Samples.archive (docs ++ rest).
Proof.
  destruct (selectContext_fallback_newest (P := asciiPlatform)
              (u "xyz") Samples.archive) as (docs & rest & E & Hl & Hp & _).
  - apply no_literal_match. vm_compute. reflexivity.
  - exists docs, rest. repeat split; assumption.
Defined.

(** The scenarios of the specification, run. *)
Example scenario_meeting :
  Server.selectContext (P := asciiPlatform) (u "lịch") Samples.corpus
  = Ok [Samples.meeting].
Proof. vm_compute. reflexivity. Qed.

Example scenario_empty_corpus :
  Server.selectContext (P := asciiPlatform) (u "xyz") [] = Ok [].
Proof. vm_compute. reflexivity. Qed.

Example scenario_archive :
  option_map (map Mongo._id)
    (match Server.selectContext (P := asciiPlatform) (u "xyz") Samples.archive
     with Ok docs => Some docs | Throw _ => None end)
  = Some [13; 16; 14; 17; 11; 15]%N.
Proof. vm_compute. reflexivity. Qed.

(** Metacharacters of the question are matched as themselves: [a.b*c] finds
    the document that holds these five characters, and no other. *)
Example scenario_metacharacters :
  Server.selectContext (P := asciiPlatform) (u "a.b*c")
    (Samples.entry 3 "axbbc" "a-b-c" 300 :: Samples.corpus)
  = Ok [Samples.report].
Proof. vm_compute. reflexivity. Qed.

Example scenario_dots :
  Server.selectContext (P := asciiPlatform) (u "...")
    [Samples.entry 4 "abc" "def" 400; Samples.entry 5 "v.v..." "x" 500]
  = Ok [Samples.entry 5 "v.v..." "x" 500].
Proof. vm_compute. reflexivity. Qed.

(** Without the escaping the same questions are patterns: [a.b*c] matches
    [axbbc], [...] matches any three characters, and [(] is rejected. *)
Example unescaped_wildcard :
  (re <- RegExp.construct (u "a.b*c") (u "i") ;;
   Ok (RegExp.test (P := asciiPlatform) re (u "axbbc"))) = Ok true
  /\ (re <- RegExp.construct (u "...") (u "i") ;;
      Ok (RegExp.test (P := asciiPlatform) re (u "abc"))) = Ok true
  /\ RegExp.construct (u "(") (u "i") = Throw SyntaxError
  /\ RegExp.construct (u "*") (u "i") = Throw SyntaxError.
Proof. vm_compute. repeat split. Qed.

(** ** White space and the answer *)

Lemma trimStart_blank s : trimStart s = [] <-> blank s.
Proof.
  unfold blank. induction s as [|c s IH]; cbn [trimStart].
  - split; [constructor|reflexivity].
  - destruct (isWhiteSpace c) eqn:E.
    + rewrite IH. split; [now constructor|now inversion 1].
    + split; [discriminate|]. inversion 1; congruence.
Qed.

Lemma trimStart_head s c t : trimStart s = c :: t -> isWhiteSpace c = false.
Proof.
  induction s as [|x s IH]; cbn [trimStart]; [discriminate|].
  destruct (isWhiteSpace x) eqn:E; [exact IH|]. congruence.
Qed.

Lemma trim_blank s : trim s = [] <-> blank s.
Proof.
  unfold trim, trimEnd. split.
  - intros H. apply (f_equal (@rev N)) in H. rewrite rev_involutive in H.
    cbn in H. apply trimStart_blank in H. unfold blank in H.
    apply Forall_rev in H. rewrite rev_involutive in H.
    destruct (trimStart s) as [|c t] eqn:E; [now apply trimStart_blank|].
    apply trimStart_head in E. inversion H; congruence.
  - intros H. apply trimStart_blank in H. rewrite H. reflexivity.
Qed.

Lemma fallbackAnswer_not_blank : ~ blank Server.fallbackAnswer.
Proof. rewrite <- trim_blank. vm_compute. discriminate. Qed.

(** C4: a raw text that is absent becomes the empty text; for a raw text that
    is empty or made of white space only the answer is the fixed fallback
    message; and the answer of the response is never empty or white space. *)
Theorem shapeResponse_answer_never_blank (raw : jstring)
  (docs : list Mongo.document) :
  Server.answerOf None = Ok [] /\
  Server.answerOf (Some {| Gemini.response := None |}) = Ok [] /\
  Server.answerOf
    (Some {| Gemini.response := Some {| Gemini.text := None |} |}) = Ok [] /\
  exists answer refs,
    Server.shapeResponse raw docs = Http.Answer answer refs /\
    ~ blank answer /\
    (blank raw -> answer = Server.fallbackAnswer).
Proof.
  repeat (split; [reflexivity|]).
  unfold Server.shapeResponse. eexists; eexists. split; [reflexivity|].
  destruct raw as [|c raw].
  - split; [apply fallbackAnswer_not_blank|reflexivity].
  - cbn [andb]. destruct (trim (c :: raw)) as [|x t] eqn:E.
    + split; [apply fallbackAnswer_not_blank|reflexivity].
    + cbn. split; intros H; apply trim_blank in H; congruence.
Qed.

Lemma shapeResponse_answer_never_blank_witness :
  blank (u "   ") /\
  exists refs,
    Server.shapeResponse (u "   ") [] = Http.Answer Server.fallbackAnswer refs.
Proof.
  assert (B : blank (u "   ")) by (apply trim_blank; reflexivity).
  split; [exact B|].
  destruct (shapeResponse_answer_never_blank (u "   ") [])
    as (_ & _ & _ & answer & refs & E & _ & H).
  exists refs. rewrite E, (H B). reflexivity.
Defined.

(** ** The prompt *)

Lemma nth_error_mapFrom {A B} (f : A -> nat -> B) l :
  forall i j,
    nth_error (mapFrom f i l) j
    = option_map (fun x => f x (i + j)%nat) (nth_error l j).
Proof.
  induction l as [|x l IH]; intros i j.
  - destruct j; reflexivity.
  - destruct j as [|j]; cbn [mapFrom nth_error option_map].
    + now rewrite Nat.add_0_r.
    + rewrite IH. now rewrite Nat.add_succ_r.
Qed.

Lemma length_mapFrom {A B} (f : A -> nat -> B) l :
  forall i, length (mapFrom f i l) = length l.
Proof. induction l; intros i; cbn; [reflexivity|now rewrite IHl]. Qed.

Lemma renderItem_block d i :
  Server.renderItem d i = block i d ++ annotation d /\ annotated d
  \/ Server.renderItem d i = block i d /\ ~ annotated d.
Proof.
  unfold Server.renderItem, annotated.
  destruct (Mongo.fileType d); cbn [andb].
  - right. split; [reflexivity|]. intros [? _]. discriminate.
  - destruct (0 <? Mongo.imageCount d)%Z eqn:E.
    + left. apply Z.ltb_lt in E. split; [|now split].
      unfold block, annotation. now rewrite <- !app_assoc.
    + right. apply Z.ltb_ge in E. split; [reflexivity|]. intros [_ ?]. lia.
Qed.

Lemma block_not_empty i d : exists c t, block i d = c :: t.
Proof.
  unfold block. change (u "Mục ") with [77; 7909; 99; 32]%N.
  cbn [app]. eauto.
Qed.

Lemma renderContext_not_empty d docs :
  exists c t, Server.renderContext (d :: docs) = c :: t.
Proof.
  unfold Server.renderContext, mapi. cbn [mapFrom join].
  destruct (block_not_empty 0 d) as (c & t & E).
  assert (H : exists t', Server.renderItem d 0 = c :: t').
  { destruct (renderItem_block d 0) as [[-> _]|[-> _]]; rewrite E;
      cbn [app]; eauto. }
  destruct H as (t' & ->).
  destruct (mapFrom Server.renderItem 1 docs); cbn [app]; eauto.
Qed.

(** C5: with no document the context section of the prompt is the fixed
    placeholder, which is not the empty string, and the prompt is the
    instruction lines around that placeholder. *)
Theorem buildPrompt_no_documents (question : jstring) :
  Server.renderContext [] = [] /\
  Server.contextOr (Server.renderContext []) = Server.noDataPlaceholder /\
  Server.noDataPlaceholder = u "Không có dữ liệu" /\
  Server.noDataPlaceholder <> [] /\
  Server.buildPrompt question []
  = join (Server.nl ++ Server.nl)
      (Server.promptLines Server.noDataPlaceholder question) /\
  nth_error (Server.promptLines Server.noDataPlaceholder question) 4
  = Some Server.noDataPlaceholder.
Proof.
  repeat split; try reflexivity. vm_compute. discriminate.
Qed.

(** C7: for a list of documents that is not empty the prompt is the four
    instruction lines, the blocks of the documents joined by blank lines,
    the question line and the cue, a blank line between any two of these
    parts; there is one block per document, in order; the block of the
    document at position [i] holds the number [i + 1], the title, the
    display date and the content, followed by the image-count line exactly
    when the document is a Word document with [imageCount > 0]. *)
Theorem buildPrompt_renders_blocks (question : jstring)
  (docs : list Mongo.document) :
  docs <> [] ->
  exists blocks,
    Server.buildPrompt question docs
    = u "Bạn là trợ lý AI hỗ trợ hỏi đáp của ủy ban phường Bình Thạnh."
      ++ blankLine
      ++ u "Luôn trả lời bằng tiếng Việt, chỉ sử dụng thông tin trong dữ liệu được cung cấp và luôn ghi nhớ Quận Bình Thạnh hiện tại đã là phường Bình Thạnh."
      ++ blankLine
      ++ u "Nếu dữ liệu không đủ, hãy nói rõ và gợi ý người dùng kiểm tra lại sau."
      ++ blankLine
      ++ u "Dữ liệu:"
      ++ blankLine
      ++ join blankLine blocks
      ++ blankLine
      ++ (u "Câu hỏi: " ++ question)
      ++ blankLine
      ++ u "Câu trả lời chi tiết:" /\
    length blocks = length docs /\
    forall i d, nth_error docs i = Some d ->
      annotation d <> [] /\
      exists b, nth_error blocks i = Some b /\
        (b = block i d ++ annotation d /\ annotated d
         \/ b = block i d /\ ~ annotated d).
Proof.
  intros Hne. exists (mapi Server.renderItem docs). split; [|split].
  - unfold Server.buildPrompt. fold (Server.renderContext docs).
    destruct docs as [|d docs]; [now elim Hne|].
    destruct (renderContext_not_empty d docs) as (c & t & E).
    unfold Server.renderContext in E.
    change (join blankLine (mapi Server.renderItem (d :: docs)))
      with (join (Server.nl ++ Server.nl) (mapi Server.renderItem (d :: docs))).
    unfold Server.renderContext. rewrite E. reflexivity.
  - apply length_mapFrom.
  - intros i d Hd. split; [discriminate|].
    exists (Server.renderItem d i). split; [|apply renderItem_block].
    unfold mapi. rewrite nth_error_mapFrom, Hd. reflexivity.
Qed.

Lemma buildPrompt_renders_blocks_witness :
  Samples.corpus <> [] /\
  exists blocks,
    length blocks = 2%nat /\
    nth_error blocks 1
    = Some (block 1 Samples.report ++ annotation Samples.report) /\
    annotation Samples.report
    = newline ++ u "(Tài liệu Word có 3 hình ảnh)".
Proof.
  assert (H : Samples.corpus <> []) by discriminate.
  split; [exact H|].
  destruct (buildPrompt_renders_blocks (u "lịch") Samples.corpus H)
    as (blocks & _ & L & Hb).
  exists blocks. split; [exact L|].
  destruct (Hb 1%nat Samples.report eq_refl) as (_ & b & Eb & [[-> _]|[_ Hn]]).
  - split; [exact Eb|reflexivity].
  - elim Hn. split; [reflexivity|reflexivity].
Defined.

Example scenario_context :
  Server.renderContext Samples.corpus
  = u "Mục 1: Lịch họp" ++ Server.nl
    ++ u "Ngày lưu: 08:00:00 1/3/2025" ++ Server.nl
    ++ u "Nội dung: Họp vào thứ 2" ++ Server.nl ++ Server.nl
    ++ u "Mục 2: Báo cáo quý" ++ Server.nl
    ++ u "Ngày lưu: 09:30:00 2/3/2025" ++ Server.nl
    ++ u "Nội dung: Số liệu a.b*c" ++ Server.nl
    ++ u "(Tài liệu Word có 3 hình ảnh)".
Proof. vm_compute. reflexivity. Qed.

(** ** The handlers *)

Section HandlerProperties.
Context {P : Platform}.

(** C8: when [/api/ask] answers with status 200, the references of the
    response are the documents that [selectContext] returned for the trimmed
    question, in the same order and number, each projected to its identifier,
    title, content, fileType, htmlContent, imageCount and date; [createdAt]
    has no part in the projection. *)
Theorem ask_references_are_context (model : option Gemini.GenerativeModel)
  (db : Mongo.collection) (q : value) :
  Http.status (Server.post_api_ask model db q) = 200%nat ->
  exists question docs answer,
    Server.questionOf q = Ok question /\
    Server.selectContext question db = Ok docs /\
    Http.json (Server.post_api_ask model db q)
    = Http.Answer answer (map Server.toReference docs) /\
    length (map Server.toReference docs) = length docs /\
    (forall i d, nth_error docs i = Some d ->
       nth_error (map Server.toReference docs) i
       = Some {| Http.id := Mongo._id d;
                 Http.r_title := Mongo.title d;
                 Http.r_content := Mongo.content d;
                 Http.r_fileType := Mongo.fileType d;
                 Http.r_htmlContent := Mongo.htmlContent d;
                 Http.r_imageCount := Mongo.imageCount d;
                 Http.r_date := Mongo.date d |}) /\
    (forall d created,
       Server.toReference
         {| Mongo._id := Mongo._id d; Mongo.title := Mongo.title d;
            Mongo.content := Mongo.content d;
            Mongo.fileType := Mongo.fileType d;
            Mongo.htmlContent := Mongo.htmlContent d;
            Mongo.imageCount := Mongo.imageCount d;
            Mongo.date := Mongo.date d; Mongo.createdAt := created |}
       = Server.toReference d).
Proof.
  unfold Server.post_api_ask. destruct model as [generateContent|];
    [|discriminate].
  destruct (Server.questionOf q) as [question|e]; [|discriminate].
  cbn [bind]. destruct question as [|c question]; [discriminate|].
  destruct (Server.selectContext (c :: question) db) as [docs|e] eqn:Es;
    [|discriminate].
  cbn [bind].
  destruct (generateContent _) as [result|e]; [|discriminate].
  cbn [bind]. destruct (Server.answerOf result) as [answer|e]; [|discriminate].
  cbn [bind Http.tryCatch]. intros _.
  exists (c :: question), docs. eexists.
  split; [reflexivity|]. split; [exact Es|]. split; [reflexivity|].
  split; [apply length_map|]. split; [|reflexivity].
  intros i d Hd. rewrite nth_error_map, Hd. reflexivity.
Qed.

(** C9: for a well-formed identifier [DELETE /api/data/:id] answers with the
    success message whatever the store holds; when no document has the
    identifier the store is left as it was, and the answer is the same. *)
Theorem delete_succeeds_whether_present (db : Mongo.collection)
  (idParam : jstring) (oid : ObjectId) :
  parseObjectId idParam = Some oid ->
  fst (Server.delete_api_data db idParam)
  = Http.ok (Http.Message (u "Deleted successfully")) /\
  ((forall d, In d db -> Mongo._id d <> oid) ->
   snd (Server.delete_api_data db idParam) = db).
Proof.
  intros Hid. unfold Server.delete_api_data. rewrite Hid. cbn [fst snd].
  split; [reflexivity|]. intros Habsent.
  induction db as [|x db IH]; [reflexivity|].
  cbn [Mongo.findByIdAndDelete].
  destruct (N.eqb_spec (Mongo._id x) oid) as [E|_].
  - elim (Habsent x); [now left|exact E].
  - cbn [snd]. f_equal. apply IH. intros d Hd. apply Habsent. now right.
Qed.

(** C10: in both variants of the [/api/ask] handler the configuration check
    comes first: with no generation provider every request, the empty
    question included, gets the 500 configuration error; so a 400 answer
    means that a provider is configured. *)
Theorem ask_checks_configuration_first :
  (forall db q,
     Server.post_api_ask None db q
     = Http.fail 500 (Http.ErrorText (u "Thiếu cấu hình Gemini API"))) /\
  (forall db q,
     Legacy.post_api_ask None db q
     = Legacy.fail 500 (Legacy.ErrorText (u "Thiáº¿u cáº¥u hÃ¬nh Gemini API"))) /\
  (forall model db q,
     Http.status (Server.post_api_ask model db q) = 400%nat ->
     model <> None) /\
  (forall model db q,
     Legacy.status (Legacy.post_api_ask model db q) = 400%nat ->
     model <> None).
Proof.
  split; [reflexivity|]. split; [reflexivity|].
  split; intros [m|] db q H; try discriminate; discriminate H.
Qed.

Lemma validate_casts k f d :
  Mongo.validate k f = Ok d ->
  Mongo.castFileType (Mongo.f_fileType f) = Ok (Mongo.fileType d) /\
  Mongo.castString (Mongo.f_htmlContent f) = Ok (Mongo.htmlContent d).
Proof.
  unfold Mongo.validate.
  destruct (Mongo.requiredString (Mongo.f_title f)); [|discriminate].
  destruct (Mongo.requiredString (Mongo.f_content f)); [|discriminate].
  destruct (Mongo.castFileType (Mongo.f_fileType f)); [|discriminate].
  destruct (Mongo.castString (Mongo.f_htmlContent f)); [|discriminate].
  destruct (Mongo.castNumber (Mongo.f_imageCount f)); [|discriminate].
  cbn [bind]. intros [= <-]. split; reflexivity.
Qed.

(** C6, as the code has it: the creation route takes [htmlContent] as it is
    supplied, whatever the [fileType]: a document that it stores has no
    [htmlContent] when the supplied one is absent or falsy, and has the
    supplied string when it is a non-empty string. The invariant that text
    documents have no [htmlContent] is preserved by every request whose
    [htmlContent] is absent or falsy, or whose [fileType] is ['word']. *)
Theorem post_api_data_keeps_text_invariant (k : Mongo.clock)
  (db : Mongo.collection) (b : Server.dataBody) :
  (textHasNoHtml db ->
   truthy (Server.b_htmlContent b) = false
   \/ Server.b_fileType b = Str (u "word") ->
   textHasNoHtml (snd (Server.post_api_data k db b))) /\
  (forall r db',
     Server.post_api_data k db b = (Http.ok (Http.Created r), db') ->
     exists d,
       db' = db ++ [d] /\ r = Server.toReference d /\
       (truthy (Server.b_htmlContent b) = false ->
        Mongo.htmlContent d = None) /\
       (forall s, Server.b_htmlContent b = Str s -> s <> [] ->
          Mongo.htmlContent d = Some s)).
Proof.
  unfold Server.post_api_data.
  destruct (negb (truthy (Server.b_title b))
            || negb (truthy (Server.b_content b)));
    [split; [intros Hdb _; exact Hdb|discriminate]|].
  destruct (Mongo.validate _ _) as [newData|e] eqn:Ev;
    [|split; [intros Hdb _; exact Hdb|discriminate]].
  apply validate_casts in Ev as [Hft Hh].
  cbn [Mongo.f_fileType Mongo.f_htmlContent] in Hft, Hh. split.
  - intros Hdb Hreq. cbn [snd]. unfold Mongo.save. intros d Hd Htext.
    apply in_app_or in Hd as [Hd|[<-|[]]]; [now apply Hdb|].
    destruct Hreq as [Hfalsy|Hword].
    + unfold JS.or in Hh. rewrite Hfalsy in Hh. cbn in Hh. congruence.
    + rewrite Hword in Hft.
      change (Mongo.castFileType (JS.or (Str (u "word")) (Str (u "text"))))
        with (Ok Mongo.word) in Hft.
      congruence.
  - intros r db' E. injection E as <- <-. exists newData.
    split; [reflexivity|]. split; [reflexivity|]. split.
    + intros Hfalsy. unfold JS.or in Hh. rewrite Hfalsy in Hh. cbn in Hh.
      congruence.
    + intros s Es Hs. rewrite Es in Hh. destruct s as [|c s]; [now elim Hs|].
      cbn in Hh. congruence.
Qed.

End HandlerProperties.

Lemma ask_references_are_context_witness :
  Http.status
    (Server.post_api_ask (P := asciiPlatform)
       (Some (Samples.parrot "Thứ 2")) Samples.corpus (Str (u " lịch ")))
  = 200%nat /\
  exists question docs answer,
    Server.selectContext (P := asciiPlatform) question Samples.corpus
    = Ok docs /\
    Http.json
      (Server.post_api_ask (P := asciiPlatform)
         (Some (Samples.parrot "Thứ 2")) Samples.corpus (Str (u " lịch ")))
    = Http.Answer answer (map Server.toReference docs).
Proof.
  assert (H : Http.status
    (Server.post_api_ask (P := asciiPlatform)
       (Some (Samples.parrot "Thứ 2")) Samples.corpus (Str (u " lịch ")))
    = 200%nat) by (vm_compute; reflexivity).
  split; [exact H|].
  destruct (ask_references_are_context (P := asciiPlatform) _ _ _ H)
    as (question & docs & answer & _ & Es & E & _).
  exists question, docs, answer. split; assumption.
Defined.

Example scenario_ask :
  Server.post_api_ask (P := asciiPlatform)
    (Some (Samples.parrot "Thứ 2")) Samples.corpus (Str (u " lịch "))
  = Http.ok (Http.Answer (u "Thứ 2") [Server.toReference Samples.meeting]).
Proof. vm_compute. reflexivity. Qed.

Lemma delete_succeeds_whether_present_witness :
  parseObjectId (Platform := asciiPlatform) (u "000000000000000000000063")
  = Some 99%N /\
  Server.delete_api_data (P := asciiPlatform) Samples.corpus
    (u "000000000000000000000063")
  = (Http.ok (Http.Message (u "Deleted successfully")), Samples.corpus).
Proof.
  assert (H : parseObjectId (Platform := asciiPlatform)
                (u "000000000000000000000063") = Some 99%N)
    by (vm_compute; reflexivity).
  split; [exact H|].
  destruct (delete_succeeds_whether_present (P := asciiPlatform)
              Samples.corpus _ _ H) as [Hr Hs].
  rewrite (surjective_pairing (Server.delete_api_data _ _)), Hr, Hs;
    [reflexivity|].
  intros d [<-|[<-|[]]]; discriminate.
Defined.

Lemma ask_checks_configuration_first_witness :
  Http.status
    (Server.post_api_ask (P := asciiPlatform)
       (Some (Samples.parrot "Thứ 2")) Samples.corpus (Str (u "   ")))
  = 400%nat /\
  Some (Samples.parrot "Thứ 2") <> None /\
  Http.status
    (Server.post_api_ask (P := asciiPlatform) None Samples.corpus
       (Str (u "   ")))
  = 500%nat.
Proof.
  destruct (ask_checks_configuration_first (P := asciiPlatform))
    as (Hnone & _ & H400 & _).
  assert (H : Http.status
    (Server.post_api_ask (P := asciiPlatform)
       (Some (Samples.parrot "Thứ 2")) Samples.corpus (Str (u "   ")))
    = 400%nat) by (vm_compute; reflexivity).
  split; [exact H|]. split; [exact (H400 _ _ _ H)|].
  rewrite Hnone. reflexivity.
Defined.

(** C6, as stated, fails: a request with no [fileType] and a non-empty
    [htmlContent] stores a text document that carries markup, so the creation
    endpoint does not preserve the invariant for every request. *)
Lemma post_api_data_breaks_text_invariant :
  ~ (forall (P : Platform) k db b,
       textHasNoHtml db -> textHasNoHtml (snd (Server.post_api_data k db b))).
Proof.
  intros H.
  specialize (H asciiPlatform Samples.today []
    {| Server.b_title := Str (u "Ghi chú");
       Server.b_content := Str (u "Nội dung");
       Server.b_fileType := Undefined;
       Server.b_htmlContent := Str (u "<p>Nội dung</p>");
       Server.b_imageCount := Undefined |}).
  assert (Hempty : textHasNoHtml []) by (intros d []).
  specialize (H Hempty
    {| Mongo._id := 99%N; Mongo.title := u "Ghi chú";
       Mongo.content := u "Nội dung"; Mongo.fileType := Mongo.text;
       Mongo.htmlContent := Some (u "<p>Nội dung</p>");
       Mongo.imageCount := 0%Z; Mongo.date := u "10:00:00 3/3/2025";
       Mongo.createdAt := 300%Z |}).
  assert (Hin : forall A (x : A), In x [x]) by (intros; now left).
  specialize (H (Hin _ _) eq_refl). discriminate H.
Qed.

Lemma post_api_data_keeps_text_invariant_witness :
  textHasNoHtml Samples.corpus /\
  textHasNoHtml
    (snd (Server.post_api_data (P := asciiPlatform) Samples.today
            Samples.corpus
            {| Server.b_title := Str (u "Ghi chú");
               Server.b_content := Str (u "Nội dung");
               Server.b_fileType := Undefined;
               Server.b_htmlContent := Undefined;
               Server.b_imageCount := Undefined |})) /\
  exists d,
    snd (Server.post_api_data (P := asciiPlatform) Samples.today []
           {| Server.b_title := Str (u "Ghi chú");
              Server.b_content := Str (u "Nội dung");
              Server.b_fileType := Undefined;
              Server.b_htmlContent := Str (u "<p>Nội dung</p>");
              Server.b_imageCount := Undefined |}) = [] ++ [d] /\
    Mongo.fileType d = Mongo.text /\
    Mongo.htmlContent d = Some (u "<p>Nội dung</p>").
Proof.
  assert (H : textHasNoHtml Samples.corpus).
  { intros d [<-|[<-|[]]]; [reflexivity|discriminate]. }
  split; [exact H|]. split.
  - apply (proj1 (post_api_data_keeps_text_invariant (P := asciiPlatform)
                    Samples.today Samples.corpus _)); [exact H|].
    left. reflexivity.
  - destruct (proj2 (post_api_data_keeps_text_invariant (P := asciiPlatform)
                       Samples.today []
                       {| Server.b_title := Str (u "Ghi chú");
                          Server.b_content := Str (u "Nội dung");
                          Server.b_fileType := Undefined;
                          Server.b_htmlContent := Str (u "<p>Nội dung</p>");
                          Server.b_imageCount := Undefined |})
                _ _ eq_refl) as (d & Edb & Er & _ & Hs).
    exists d. split; [cbn in Edb; injection Edb as <-; reflexivity|].
    split; [|apply (Hs (u "<p>Nội dung</p>") eq_refl); discriminate].
    cbn in Edb. injection Edb as <-. reflexivity.
Defined.

Example scenario_create_text_with_markup :
  Server.post_api_data (P := asciiPlatform) Samples.today []
    {| Server.b_title := Str (u "Ghi chú");
       Server.b_content := Str (u "Nội dung");
       Server.b_fileType := Undefined;
       Server.b_htmlContent := Str (u "<p>Nội dung</p>");
       Server.b_imageCount := Undefined |}
  = (Http.ok (Http.Created
       {| Http.id := 99%N; Http.r_title := u "Ghi chú";
          Http.r_content := u "Nội dung"; Http.r_fileType := Mongo.text;
          Http.r_htmlContent := Some (u "<p>Nội dung</p>");
          Http.r_imageCount := 0%Z; Http.r_date := u "10:00:00 3/3/2025" |}),
     [ {| Mongo._id := 99%N; Mongo.title := u "Ghi chú";
          Mongo.content := u "Nội dung"; Mongo.fileType := Mongo.text;
          Mongo.htmlContent := Some (u "<p>Nội dung</p>");
          Mongo.imageCount := 0%Z; Mongo.date := u "10:00:00 3/3/2025";
          Mongo.createdAt := 300%Z |} ]).
Proof. vm_compute. reflexivity. Qed.

(** ** The handlers stay inside the model

    [NotModelled] and [OutOfFuel] never come out of a handler: the escaped
    question is always inside the modelled pattern fragment, and the values
    the creation endpoint hands to the schema are the ones the casters are
    modelled for. *)

Section WithinModel.
Context {P : Platform}.

Lemma or_truthy v d : truthy d = true -> truthy (JS.or v d) = true.
Proof. unfold JS.or. destruct (truthy v) eqn:E; auto. Qed.

Lemma castString_errors v e : Mongo.castString v = Throw e -> jsError e.
Proof. destruct v as [| |b|z|s|]; cbn; intros [= <-]. now right. Qed.

Lemma requiredString_errors v e : Mongo.requiredString v = Throw e -> jsError e.
Proof.
  unfold Mongo.requiredString.
  destruct (Mongo.castString v) as [[[|c s]|]|e'] eqn:E; cbn [bind];
    intros [= <-]; try (now right).
  eapply castString_errors; eassumption.
Qed.

Lemma castFileType_errors v e :
  truthy v = true -> Mongo.castFileType v = Throw e -> jsError e.
Proof.
  unfold Mongo.castFileType. intros Hv.
  destruct v as [| |b|z|s|]; try discriminate Hv;
    match goal with
    | |- (_ <- Mongo.castString ?x ;; _) = _ -> _ =>
      destruct (Mongo.castString x) as [[s'|]|e'] eqn:E; cbn [bind]
    end;
    try (intros [= <-]; first [now right | eapply castString_errors; eassumption]).
  all: destruct (codeUnitsEq s' (u "text")); [discriminate|];
    destruct (codeUnitsEq s' (u "word")); [discriminate|];
    intros [= <-]; now right.
Qed.

Lemma castNumber_errors v e :
  (truthy v = true \/ v = Num 0) -> Mongo.castNumber v = Throw e -> jsError e.
Proof.
  intros Hv. destruct v as [| |b|z|[|c s]|]; cbn [Mongo.castNumber];
    try (destruct Hv as [Hv|Hv]; discriminate Hv); try discriminate.
  - destruct (stringToNumber (c :: s)); [discriminate|]. intros [= <-]. now right.
  - intros [= <-]. now right.
Qed.

Lemma post_api_data_errors k db b e :
  Http.json (fst (Server.post_api_data k db b)) = Http.ErrorOf e -> jsError e.
Proof.
  unfold Server.post_api_data.
  destruct (negb (truthy (Server.b_title b))
            || negb (truthy (Server.b_content b))); [discriminate|].
  destruct (Mongo.validate _ _) as [d|e'] eqn:Ev; [discriminate|].
  cbn. intros [= <-]. revert Ev. unfold Mongo.validate.
  cbn [Mongo.f_title Mongo.f_content Mongo.f_fileType Mongo.f_htmlContent
       Mongo.f_imageCount].
  destruct (Mongo.requiredString (Server.b_title b)) eqn:E1; cbn [bind];
    [|intros [= <-]; eapply requiredString_errors; eassumption].
  destruct (Mongo.requiredString (Server.b_content b)) eqn:E2; cbn [bind];
    [|intros [= <-]; eapply requiredString_errors; eassumption].
  destruct (Mongo.castFileType _) eqn:E3; cbn [bind];
    [|intros [= <-]; eapply castFileType_errors; [|eassumption];
      now apply or_truthy].
  destruct (Mongo.castString _) eqn:E4; cbn [bind];
    [|intros [= <-]; eapply castString_errors; eassumption].
  destruct (Mongo.castNumber _) eqn:E5; cbn [bind]; [discriminate|].
  intros [= <-]. eapply castNumber_errors; [|eassumption].
  unfold JS.or. destruct (truthy (Server.b_imageCount b)) eqn:Et; auto.
Qed.

End WithinModel.

(** * Further properties of the question route *)

Lemma trimStart_suffix s : exists w, s = w ++ trimStart s.
Proof.
  induction s as [|c s [w IH]]; [now exists []|].
  cbn [trimStart]. destruct (isWhiteSpace c); [|now exists []].
  exists (c :: w). cbn. now f_equal.
Qed.

Lemma trimStart_fixed t :
  (forall c t', t = c :: t' -> isWhiteSpace c = false) -> trimStart t = t.
Proof.
  destruct t as [|c t']; [reflexivity|]. intros H.
  cbn [trimStart]. now rewrite (H c t' eq_refl).
Qed.

Lemma trimStart_idempotent s : trimStart (trimStart s) = trimStart s.
Proof.
  apply trimStart_fixed. intros c t' E. eapply trimStart_head; eassumption.
Qed.

Lemma trim_idempotent s : trim (trim s) = trim s.
Proof.
  unfold trim, trimEnd.
  set (t := trimStart s). set (y := trimStart (rev t)).
  assert (B : trimStart (rev y) = rev y).
  { apply trimStart_fixed. intros c r E.
    destruct (trimStart_suffix (rev t)) as [w Hw]. fold y in Hw.
    apply (f_equal (@rev N)) in Hw.
    rewrite rev_involutive, rev_app_distr, E in Hw.
    subst t. cbn in Hw. eapply trimStart_head; eassumption. }
  rewrite B, rev_involutive. subst y. now rewrite trimStart_idempotent.
Qed.

Lemma questionOf_string s : Server.questionOf (Str s) = Ok (trim s).
Proof. destruct s; reflexivity. Qed.

Lemma questionOf_falsy q : truthy q = false -> Server.questionOf q = Ok [].
Proof. unfold Server.questionOf, JS.or. now intros ->. Qed.

Lemma questionOf_inv q question :
  Server.questionOf q = Ok question ->
  (truthy q = false /\ question = []) \/ exists s, q = Str s /\ question = trim s.
Proof.
  unfold Server.questionOf, JS.or. destruct (truthy q) eqn:T.
  - destruct q; try discriminate. intros [= <-]. right. eauto.
  - intros [= <-]. now left.
Qed.

Section QuestionRoute.
Context {P : Platform}.

(** X1: white space around the question makes no difference: the question
    route answers a string question exactly as it answers the trimmed
    question. *)
Theorem ask_ignores_padding (model : option Gemini.GenerativeModel)
  (db : Mongo.collection) (s : jstring) :
  Server.post_api_ask model db (Str s)
  = Server.post_api_ask model db (Str (trim s)).
Proof.
  unfold Server.post_api_ask.
  now rewrite !questionOf_string, trim_idempotent.
Qed.

(** X2: the question route answers 200 exactly when a generation model is
    configured, the question is a string that is not blank, the model
    returns on the prompt built from the trimmed question and the selected
    documents, and reading the text of its result does not throw. *)
Theorem ask_succeeds_exactly_when (model : option Gemini.GenerativeModel)
  (db : Mongo.collection) (q : value) :
  Http.status (Server.post_api_ask model db q) = 200%nat <->
  exists generateContent s docs result answer,
    model = Some generateContent /\ q = Str s /\ ~ blank s /\
    Server.selectContext (trim s) db = Ok docs /\
    generateContent (Server.buildPrompt (trim s) docs) = Ok result /\
    Server.answerOf result = Ok answer.
Proof.
  unfold Server.post_api_ask. split.
  - destruct model as [generateContent|]; [|discriminate].
    destruct (Server.questionOf q) as [question|e] eqn:Eq; [|discriminate].
    cbn [bind]. destruct question as [|c question]; [discriminate|].
    destruct (Server.selectContext (c :: question) db) as [docs|e] eqn:Es;
      [|discriminate].
    cbn [bind].
    destruct (generateContent _) as [result|e] eqn:Eg; [|discriminate].
    cbn [bind].
    destruct (Server.answerOf result) as [answer|e] eqn:Ea; [|discriminate].
    intros _. apply questionOf_inv in Eq as [[_ ?]|(s & -> & Hs)];
      [discriminate|].
    exists generateContent, s, docs, result, answer. rewrite <- Hs.
    repeat split; try assumption.
    intros Hb. apply trim_blank in Hb. congruence.
  - intros (generateContent & s & docs & result & answer
            & -> & -> & Hs & Es & Eg & Ea).
    rewrite questionOf_string. cbn [bind].
    destruct (trim s) as [|c t] eqn:Et;
      [elim Hs; now apply trim_blank|].
    rewrite Es. cbn [bind]. rewrite Eg. cbn [bind]. rewrite Ea. reflexivity.
Qed.

(** X3: whatever goes wrong, the question route answers with one of three
    fixed messages: the missing configuration (500), the missing question
    (400), or the request that could not be processed (500). No detail of an
    error reaches the caller. *)
Theorem ask_failures_are_fixed_messages
  (model : option Gemini.GenerativeModel) (db : Mongo.collection)
  (q : value) :
  Http.status (Server.post_api_ask model db q) <> 200%nat ->
  Server.post_api_ask model db q
  = Http.fail 500 (Http.ErrorText (u "Thiếu cấu hình Gemini API"))
  \/ Server.post_api_ask model db q
     = Http.fail 400 (Http.ErrorText (u "Vui lòng nhập câu hỏi"))
  \/ Server.post_api_ask model db q
     = Http.fail 500
         (Http.ErrorText (u "Không thể xử lý yêu cầu. Vui lòng thử lại.")).
Proof.
  unfold Server.post_api_ask.
  destruct model as [generateContent|]; [|now left].
  destruct (Server.questionOf q) as [[|c question]|e]; cbn [bind];
    [right; now left| |right; now right].
  destruct (Server.selectContext (c :: question) db) as [docs|e];
    cbn [bind]; [|right; now right].
  destruct (generateContent _) as [result|e]; cbn [bind];
    [|right; now right].
  destruct (Server.answerOf result) as [answer|e]; cbn [bind];
    [|right; now right].
  intros H. now elim H.
Qed.

(** X4: with a model configured, the answer is the 400 of the missing
    question exactly when the question is absent or falsy, or a string made
    of white space only; the store and the model have no say in it. *)
Theorem ask_rejects_blank_question (generateContent : Gemini.GenerativeModel)
  (db : Mongo.collection) (q : value) :
  Server.post_api_ask (Some generateContent) db q
  = Http.fail 400 (Http.ErrorText (u "Vui lòng nhập câu hỏi"))
  <-> truthy q = false \/ exists s, q = Str s /\ blank s.
Proof.
  unfold Server.post_api_ask. split.
  - destruct (Server.questionOf q) as [[|c question]|e] eqn:Eq; cbn [bind].
    + intros _. apply questionOf_inv in Eq as [[? _]|(s & -> & Hs)];
        [now left|].
      right. exists s. split; [reflexivity|]. now apply trim_blank.
    + destruct (Server.selectContext (c :: question) db); cbn [bind];
        [|discriminate].
      destruct (generateContent _); cbn [bind]; [|discriminate].
      destruct (Server.answerOf _); discriminate.
    + discriminate.
  - intros [Hf|(s & -> & Hs)].
    + now rewrite (questionOf_falsy q Hf).
    + rewrite questionOf_string. apply trim_blank in Hs. now rewrite Hs.
Qed.

(** X5: an answer that is not blank reaches the caller as the model gave
    it, untrimmed. *)
Theorem shapeResponse_keeps_answer (raw : jstring)
  (docs : list Mongo.document) :
  ~ blank raw ->
  Server.shapeResponse raw docs
  = Http.Answer raw (map Server.toReference docs).
Proof.
  intros Hb. unfold Server.shapeResponse.
  destruct raw as [|c raw]; [elim Hb; constructor|].
  destruct (trim (c :: raw)) eqn:E; [elim Hb; now apply trim_blank|].
  reflexivity.
Qed.

Lemma prefixCI_canon w1 w2 :
  map canonicalize w1 = map canonicalize w2 ->
  forall s, prefixCI w1 s = prefixCI w2 s.
Proof.
  revert w2. induction w1 as [|c w1 IH]; intros [|c2 w2] E s;
    try discriminate; [reflexivity|].
  cbn in E. injection E as Hc Hw. destruct s as [|d s]; [reflexivity|].
  cbn [prefixCI]. now rewrite Hc, (IH w2 Hw).
Qed.

Lemma containsCI_canon w1 w2 :
  map canonicalize w1 = map canonicalize w2 ->
  forall s, containsCI w1 s = containsCI w2 s.
Proof.
  intros E s. induction s as [|d s IH]; cbn [containsCI];
    rewrite (prefixCI_canon w1 w2 E); [reflexivity|now rewrite IH].
Qed.

(** X6: two questions that the engine's case folding makes equal select the
    same documents. *)
Theorem selectContext_case_insensitive (q1 q2 : jstring)
  (db : Mongo.collection) :
  map canonicalize q1 = map canonicalize q2 ->
  Server.selectContext q1 db = Server.selectContext q2 db.
Proof.
  intros E. rewrite !selectContext_queries. unfold Mongo.find.
  rewrite (filter_ext (literalMatchb q1) (literalMatchb q2)); [reflexivity|].
  intros d. unfold literalMatchb. now rewrite !(containsCI_canon q1 q2 E).
Qed.

Lemma NoDup_limit A n (l : list A) : NoDup l -> NoDup (Mongo.limit n l).
Proof.
  unfold Mongo.limit. intros H. rewrite <- (firstn_skipn n l) in H.
  eapply NoDup_app_remove_r. exact H.
Qed.

(** X7: [selectContext] hands out stored documents only, and none of them
    twice when the store holds none twice. *)
Theorem selectContext_from_store (question : jstring)
  (db : Mongo.collection) :
  exists docs,
    Server.selectContext question db = Ok docs /\
    (forall d, In d docs -> In d db) /\
    (NoDup db -> NoDup docs).
Proof.
  rewrite selectContext_queries.
  set (matches := Mongo.limit 6 (Mongo.find (literalMatchb question) db)).
  assert (Hm : (forall d, In d matches -> In d db) /\ (NoDup db -> NoDup matches)).
  { split.
    - intros d Hd. apply limit_In, filter_In in Hd. tauto.
    - intros Hn. apply NoDup_limit, NoDup_filter, Hn. }
  eexists. split; [reflexivity|].
  destruct matches; [|exact Hm]. split.
  - intros d Hd. apply limit_In in Hd.
    eapply Permutation_in; [apply sortDesc_perm|exact Hd].
  - intros Hn. apply NoDup_limit.
    eapply Permutation_NoDup; [symmetry; apply sortDesc_perm|exact Hn].
Qed.

End QuestionRoute.

Lemma ask_failures_are_fixed_messages_witness :
  Http.status
    (Server.post_api_ask (P := asciiPlatform)
       (Some (fun _ => Throw UpstreamError)) Samples.corpus (Str (u "lịch")))
  <> 200%nat /\
  Server.post_api_ask (P := asciiPlatform)
    (Some (fun _ => Throw UpstreamError)) Samples.corpus (Str (u "lịch"))
  = Http.fail 500
      (Http.ErrorText (u "Không thể xử lý yêu cầu. Vui lòng thử lại.")).
Proof.
  assert (H : Http.status
    (Server.post_api_ask (P := asciiPlatform)
       (Some (fun _ => Throw UpstreamError)) Samples.corpus (Str (u "lịch")))
    <> 200%nat) by (vm_compute; discriminate).
  split; [exact H|].
  destruct (ask_failures_are_fixed_messages (P := asciiPlatform) _ _ _ H)
    as [E|[E|E]]; [| |exact E]; rewrite E in H; vm_compute in E;
    discriminate E.
Defined.

Lemma shapeResponse_keeps_answer_witness :
  ~ blank (u " Thứ 2 ") /\
  Server.shapeResponse (u " Thứ 2 ") [Samples.meeting]
  = Http.Answer (u " Thứ 2 ") [Server.toReference Samples.meeting].
Proof.
  assert (H : ~ blank (u " Thứ 2 "))
    by (rewrite <- trim_blank; vm_compute; discriminate).
  split; [exact H|].
  apply (shapeResponse_keeps_answer (u " Thứ 2 ") [Samples.meeting] H).
Defined.

Lemma selectContext_case_insensitive_witness :
  map (canonicalize (Platform := asciiPlatform)) (u "HOP")
  = map (canonicalize (Platform := asciiPlatform)) (u "hop") /\
  Server.selectContext (P := asciiPlatform) (u "HOP") Samples.corpus
  = Server.selectContext (P := asciiPlatform) (u "hop") Samples.corpus.
Proof.
  assert (H : map (canonicalize (Platform := asciiPlatform)) (u "HOP")
              = map (canonicalize (Platform := asciiPlatform)) (u "hop"))
    by reflexivity.
  split; [exact H|].
  apply (selectContext_case_insensitive (P := asciiPlatform) _ _ _ H).
Defined.

(** * Properties of the data routes *)

Section DataRoutes.
Context {P : Platform}.

Lemma validate_clock k f d :
  Mongo.validate k f = Ok d ->
  Mongo._id d = Mongo.freshId k /\ Mongo.createdAt d = Mongo.now k
  /\ Mongo.date d = Mongo.nowLocale k.
Proof.
  unfold Mongo.validate.
  destruct (Mongo.requiredString (Mongo.f_title f)); [|discriminate].
  destruct (Mongo.requiredString (Mongo.f_content f)); [|discriminate].
  destruct (Mongo.castFileType (Mongo.f_fileType f)); [|discriminate].
  destruct (Mongo.castString (Mongo.f_htmlContent f)); [|discriminate].
  destruct (Mongo.castNumber (Mongo.f_imageCount f)); [|discriminate].
  cbn [bind]. intros [= <-]. repeat split.
Qed.

Lemma post_api_data_outcome (k : Mongo.clock)
  (db : Mongo.collection) (b : Server.dataBody) :
  (exists d,
     Server.post_api_data k db b
     = (Http.ok (Http.Created (Server.toReference d)), db ++ [d]) /\
     Mongo._id d = Mongo.freshId k /\ Mongo.createdAt d = Mongo.now k /\
     Mongo.date d = Mongo.nowLocale k)
  \/ (Http.status (fst (Server.post_api_data k db b)) = 400%nat /\
      snd (Server.post_api_data k db b) = db).
Proof.
  unfold Server.post_api_data.
  destruct (negb (truthy (Server.b_title b))
            || negb (truthy (Server.b_content b))); [right; now split|].
  destruct (Mongo.validate _ _) as [d|e] eqn:Ev; [|right; now split].
  left. exists d. split; [reflexivity|]. eapply validate_clock, Ev.
Qed.

(** X8: the creation route either answers 200, having added exactly one
    document at the end of the store, the one its answer shows, with the
    identifier, instant and display date of the moment; or it answers 400
    and leaves the store as it was. *)
Theorem post_api_data_stores_or_rejects (k : Mongo.clock)
  (db : Mongo.collection) (b : Server.dataBody) :
  (exists d,
     Server.post_api_data k db b
     = (Http.ok (Http.Created (Server.toReference d)), db ++ [d]) /\
     Mongo._id d = Mongo.freshId k /\ Mongo.createdAt d = Mongo.now k /\
     Mongo.date d = Mongo.nowLocale k)
  \/ (Http.status (fst (Server.post_api_data k db b)) = 400%nat /\
      snd (Server.post_api_data k db b) = db).
Proof. exact (post_api_data_outcome k db b). Qed.

(** X9: the answer is the fixed "Title and content are required" exactly
    when the title or the content is absent or falsy. *)
Theorem post_api_data_requires_title_and_content (k : Mongo.clock)
  (db : Mongo.collection) (b : Server.dataBody) :
  fst (Server.post_api_data k db b)
  = Http.fail 400 (Http.ErrorText (u "Title and content are required"))
  <-> truthy (Server.b_title b) = false
      \/ truthy (Server.b_content b) = false.
Proof.
  unfold Server.post_api_data. split.
  - destruct (truthy (Server.b_title b)); [|now left].
    destruct (truthy (Server.b_content b)); [|now right].
    cbn [negb orb]. destruct (Mongo.validate _ _); discriminate.
  - intros [-> | ->]; [reflexivity|].
    now rewrite orb_true_r.
Qed.

(** X10: a request with a title and a content that are non-empty strings and
    with the three optional fields absent or falsy is always stored, as a
    text document with no markup and no image. *)
Theorem post_api_data_defaults (k : Mongo.clock) (db : Mongo.collection)
  (b : Server.dataBody) (t c : jstring) :
  Server.b_title b = Str t -> t <> [] ->
  Server.b_content b = Str c -> c <> [] ->
  truthy (Server.b_fileType b) = false ->
  truthy (Server.b_htmlContent b) = false ->
  truthy (Server.b_imageCount b) = false ->
  snd (Server.post_api_data k db b)
  = db ++ [ {| Mongo._id := Mongo.freshId k; Mongo.title := t;
               Mongo.content := c; Mongo.fileType := Mongo.text;
               Mongo.htmlContent := None; Mongo.imageCount := 0%Z;
               Mongo.date := Mongo.nowLocale k;
               Mongo.createdAt := Mongo.now k |} ].
Proof.
  intros Et Ht Ec Hc Hf Hh Hn. unfold Server.post_api_data, Mongo.validate.
  cbn [Mongo.f_title Mongo.f_content Mongo.f_fileType Mongo.f_htmlContent
       Mongo.f_imageCount].
  unfold JS.or. rewrite Et, Ec, Hf, Hh, Hn.
  destruct t as [|t0 t']; [now elim Ht|].
  destruct c as [|c0 c']; [now elim Hc|].
  reflexivity.
Qed.

(** X11: a file type that is a string other than ['text'] and ['word'] is
    refused: the answer is a 400 and nothing is stored. *)
Theorem post_api_data_refuses_file_type (k : Mongo.clock)
  (db : Mongo.collection) (b : Server.dataBody) (s : jstring) :
  Server.b_fileType b = Str s ->
  s <> [] -> s <> u "text" -> s <> u "word" ->
  Http.status (fst (Server.post_api_data k db b)) = 400%nat /\
  snd (Server.post_api_data k db b) = db.
Proof.
  intros Ef Hs Ht Hw.
  destruct (post_api_data_outcome k db b)
    as [(d & E & _)|H]; [|exact H].
  exfalso. revert E. unfold Server.post_api_data.
  destruct (negb (truthy (Server.b_title b))
            || negb (truthy (Server.b_content b))); [discriminate|].
  destruct (Mongo.validate _ _) as [d'|e] eqn:Ev; [|discriminate].
  apply validate_casts in Ev as [Hft _].
  cbn [Mongo.f_fileType] in Hft. rewrite Ef in Hft.
  destruct s as [|s0 s']; [now elim Hs|].
  unfold JS.or in Hft. cbn [truthy Mongo.castFileType Mongo.castString bind]
    in Hft.
  unfold codeUnitsEq in Hft.
  destruct (list_eq_dec N.eq_dec (s0 :: s') (u "text")); [contradiction|].
  destruct (list_eq_dec N.eq_dec (s0 :: s') (u "word")); [contradiction|].
  discriminate Hft.
Qed.

Lemma formatItem_toReference d : Routes.formatItem d = Server.toReference d.
Proof.
  unfold Routes.formatItem, Server.toReference.
  destruct (Z.eqb_spec (Mongo.imageCount d) 0) as [E|_]; [|reflexivity].
  now rewrite E.
Qed.

Lemma get_api_data_sorted (db : Mongo.collection) :
  Routes.get_api_data db
  = map Server.toReference (Mongo.sortDesc Mongo.createdAt db).
Proof.
  unfold Routes.get_api_data, Mongo.find.
  rewrite forallb_filter_id by (apply forallb_forall; reflexivity).
  apply map_ext, formatItem_toReference.
Qed.

(** X12: the listing shows every stored document exactly once, newest
    first, each with the same seven fields as a reference of the question
    route. *)
Theorem get_api_data_lists_newest_first (db : Mongo.collection) :
  exists docs,
    Routes.get_api_data db = map Server.toReference docs /\
    Permutation db docs /\
    StronglySorted (newerFirst Mongo.createdAt) docs.
Proof.
  exists (Mongo.sortDesc Mongo.createdAt db). split; [|split].
  - unfold Routes.get_api_data, Mongo.find.
    rewrite forallb_filter_id by (apply forallb_forall; reflexivity).
    apply map_ext, formatItem_toReference.
  - symmetry. apply sortDesc_perm.
  - apply sortDesc_sorted.
Qed.

(** X13: a document that the creation route has stored is in the next
    listing, as the creation route showed it, and the listing is one entry
    longer than the store was. *)
Theorem created_document_is_listed (k : Mongo.clock) (db db' : Mongo.collection)
  (b : Server.dataBody) (r : Http.reference) :
  Server.post_api_data k db b = (Http.ok (Http.Created r), db') ->
  In r (Routes.get_api_data db') /\
  length (Routes.get_api_data db') = S (length db).
Proof.
  intros E.
  destruct (post_api_data_outcome k db b)
    as [(d & E' & _)|[Hs _]].
  - rewrite E in E'. injection E' as -> ->.
    rewrite get_api_data_sorted.
    assert (Hp : Permutation (db ++ [d])
                   (Mongo.sortDesc Mongo.createdAt (db ++ [d])))
      by (symmetry; apply sortDesc_perm).
    split.
    + apply in_map. eapply Permutation_in; [exact Hp|].
      apply in_or_app. right. now left.
    + rewrite length_map, <- (Permutation_length Hp), length_app. cbn. lia.
  - rewrite E in Hs. discriminate Hs.
Qed.

End DataRoutes.

(** ** Deleting by identifier *)

Section FindByIdAndDelete.
Context {A : Type}.
Variable idOf : A -> ObjectId.

Lemma findByIdAndDelete_absent oid c :
  (forall x, In x c -> idOf x <> oid) ->
  Mongo.findByIdAndDelete idOf oid c = (None, c).
Proof.
  induction c as [|x c IH]; intros H; [reflexivity|].
  cbn [Mongo.findByIdAndDelete].
  destruct (N.eqb_spec (idOf x) oid) as [E|_].
  - elim (H x); [now left|exact E].
  - rewrite IH by (intros y Hy; apply H; now right). reflexivity.
Qed.

Lemma findByIdAndDelete_first oid pre d post :
  (forall x, In x pre -> idOf x <> oid) -> idOf d = oid ->
  Mongo.findByIdAndDelete idOf oid (pre ++ d :: post) = (Some d, pre ++ post).
Proof.
  intros Hpre Hd. induction pre as [|x pre IH]; cbn [app Mongo.findByIdAndDelete].
  - rewrite Hd, N.eqb_refl. reflexivity.
  - destruct (N.eqb_spec (idOf x) oid) as [E|_].
    + elim (Hpre x); [now left|exact E].
    + rewrite IH by (intros y Hy; apply Hpre; now right). reflexivity.
Qed.

Lemma findByIdAndDelete_cases oid c :
  (Mongo.findByIdAndDelete idOf oid c = (None, c)
   /\ forall x, In x c -> idOf x <> oid)
  \/ exists pre d post,
       c = pre ++ d :: post /\ idOf d = oid /\
       (forall x, In x pre -> idOf x <> oid) /\
       Mongo.findByIdAndDelete idOf oid c = (Some d, pre ++ post).
Proof.
  induction c as [|x c IH].
  - left. split; [reflexivity|]. intros x [].
  - destruct (N.eqb_spec (idOf x) oid) as [E|N].
    + right. exists [], x, c. repeat split; try assumption.
      * intros y [].
      * cbn. rewrite E, N.eqb_refl. reflexivity.
    + destruct IH as [[Hr Ha]|(pre & d & post & -> & Hd & Hpre & Hr)].
      * left. split.
        -- apply findByIdAndDelete_absent. intros y [<-|Hy]; auto.
        -- intros y [<-|Hy]; auto.
      * right. exists (x :: pre), d, post. repeat split; try assumption.
        -- intros y [<-|Hy]; auto.
        -- apply (findByIdAndDelete_first oid (x :: pre) d post);
             [intros y [<-|Hy]; auto|exact Hd].
Qed.

Lemma findByIdAndDelete_unique oid c :
  NoDup (map idOf c) ->
  snd (Mongo.findByIdAndDelete idOf oid c)
  = filter (fun x => negb (idOf x =? oid)%N) c.
Proof.
  induction c as [|x c IH]; intros Hn; [reflexivity|].
  cbn [map] in Hn. inversion Hn as [|? ? Hx Hc]; subst.
  cbn [Mongo.findByIdAndDelete filter].
  destruct (N.eqb_spec (idOf x) oid) as [E|_]; cbn [negb snd].
  - symmetry. apply forallb_filter_id, forallb_forall. intros y Hy.
    apply negb_true_iff, N.eqb_neq. intros Ey. apply Hx.
    rewrite E, <- Ey. now apply in_map.
  - f_equal. now apply IH.
Qed.

Lemma NoDup_map_filter (f : A -> bool) c :
  NoDup (map idOf c) -> NoDup (map idOf (filter f c)).
Proof.
  induction c as [|x c IH]; intros Hn; [constructor|].
  cbn [map] in Hn. inversion Hn as [|? ? Hx Hc]; subst.
  cbn [filter]. destruct (f x); [|now apply IH].
  cbn [map]. constructor; [|now apply IH].
  intros Hin. apply Hx. apply in_map_iff in Hin as (y & Ey & Hy).
  apply filter_In in Hy as [Hy _]. rewrite <- Ey. now apply in_map.
Qed.

End FindByIdAndDelete.

Section DeleteRoute.
Context {P : Platform}.

(** X14: the deletion route removes at most one document, the first one in
    natural order that has the identifier, and keeps all the others in their
    order; a parameter that is no identifier gets a 500 and removes
    nothing. *)
Theorem delete_api_data_removes_one (db : Mongo.collection)
  (idParam : jstring) :
  (parseObjectId idParam = None /\
   Server.delete_api_data db idParam
   = (Http.fail 500 (Http.ErrorOf CastError), db))
  \/ (exists oid,
        parseObjectId idParam = Some oid /\
        Http.status (fst (Server.delete_api_data db idParam)) = 200%nat /\
        ((snd (Server.delete_api_data db idParam) = db /\
          forall d, In d db -> Mongo._id d <> oid)
         \/ exists pre d post,
              db = pre ++ d :: post /\ Mongo._id d = oid /\
              (forall x, In x pre -> Mongo._id x <> oid) /\
              snd (Server.delete_api_data db idParam) = pre ++ post)).
Proof.
  unfold Server.delete_api_data.
  destruct (parseObjectId idParam) as [oid|]; [right|left; now split].
  exists oid. split; [reflexivity|]. split; [reflexivity|]. cbn [snd].
  destruct (findByIdAndDelete_cases Mongo._id oid db)
    as [[-> Ha]|(pre & d & post & E & Hd & Hpre & ->)].
  - left. now split.
  - right. exists pre, d, post. now repeat split.
Qed.

(** X15: in a store whose identifiers are unique, the deletion route leaves
    exactly the documents with another identifier, identifiers stay unique,
    and deleting the same identifier again changes nothing more. *)
Theorem delete_api_data_unique_ids (db : Mongo.collection)
  (idParam : jstring) (oid : ObjectId) :
  parseObjectId idParam = Some oid ->
  NoDup (map Mongo._id db) ->
  snd (Server.delete_api_data db idParam)
  = filter (fun d => negb (Mongo._id d =? oid)%N) db /\
  NoDup (map Mongo._id (snd (Server.delete_api_data db idParam))) /\
  (forall d, In d (snd (Server.delete_api_data db idParam)) ->
     Mongo._id d <> oid) /\
  snd (Server.delete_api_data (snd (Server.delete_api_data db idParam))
         idParam)
  = snd (Server.delete_api_data db idParam).
Proof.
  intros Hid Hn. unfold Server.delete_api_data. rewrite Hid. cbn [snd].
  rewrite (findByIdAndDelete_unique Mongo._id oid db Hn).
  assert (Hn' : NoDup (map Mongo._id
                   (filter (fun d => negb (Mongo._id d =? oid)%N) db)))
    by now apply NoDup_map_filter.
  assert (Hgone : forall d,
             In d (filter (fun d => negb (Mongo._id d =? oid)%N) db) ->
             Mongo._id d <> oid).
  { intros d Hd. apply filter_In in Hd as [_ Hd].
    now apply negb_true_iff, N.eqb_neq in Hd. }
  repeat split; try assumption.
  rewrite (findByIdAndDelete_absent Mongo._id oid _ Hgone). reflexivity.
Qed.

(** X16: creating a document under an identifier that the store does not
    hold yet and then deleting that identifier gives the store back as it
    was; creating alone keeps the identifiers unique. *)
Theorem create_then_delete (k : Mongo.clock) (db db' : Mongo.collection)
  (b : Server.dataBody) (r : Http.reference) (idParam : jstring) :
  Server.post_api_data k db b = (Http.ok (Http.Created r), db') ->
  (forall d, In d db -> Mongo._id d <> Mongo.freshId k) ->
  parseObjectId idParam = Some (Mongo.freshId k) ->
  snd (Server.delete_api_data db' idParam) = db /\
  (NoDup (map Mongo._id db) -> NoDup (map Mongo._id db')).
Proof.
  intros E Hfresh Hid.
  destruct (post_api_data_outcome k db b)
    as [(d & E' & Hd & _)|[Hs _]];
    [|rewrite E in Hs; discriminate Hs].
  rewrite E in E'. injection E' as -> ->. split.
  - unfold Server.delete_api_data. rewrite Hid. cbn [snd].
    rewrite (findByIdAndDelete_first Mongo._id (Mongo.freshId k) db d [] Hfresh Hd).
    cbn [snd]. apply app_nil_r.
  - intros Hn. rewrite map_app. cbn [map].
    apply NoDup_app; [exact Hn|repeat constructor; intros []|].
    intros x Hx [<-|[]]. apply in_map_iff in Hx as (y & Ey & Hy).
    apply (Hfresh y Hy). congruence.
Qed.

End DeleteRoute.

(** * Properties of the migration script *)






(** X20: the migration keeps text documents free of markup: if the
    documents that it skips, read through the schema, obey that a text
    document has no markup, all documents obey it afterwards. *)
Theorem migrateData_text_has_no_html (allData : list Migrate.document) :
  Migrate.textHasNoHtml
    (filter (fun d => negb (Migrate.needsMigration d)) allData) ->
  Migrate.textHasNoHtml (fst (Migrate.migrateData allData)).
Proof.
  unfold Migrate.migrateData, Migrate.textHasNoHtml. cbn [fst].
  generalize 0%nat. induction allData as [|doc rest IH]; intros n H d Hd Ht;
    [destruct Hd|].
  cbn [Migrate.migrateLoop filter] in *.
  unfold Migrate.needsMigration at 1 in H.
  destruct (Migrate.readFileType (Migrate.fileType doc)) eqn:E;
    cbn [fst negb] in Hd, H; destruct Hd as [<-|Hd].
  - apply H; [now left|exact Ht].
  - eapply IH; [|exact Hd|exact Ht]. intros x Hx. apply H. now right.
  - reflexivity.
  - eapply IH; [|exact Hd|exact Ht]. exact H.
Qed.

(** * Properties of the carousel routes *)

Lemma codeUnitsEq_eq a b : codeUnitsEq a b = true <-> a = b.
Proof.
  unfold codeUnitsEq. destruct (list_eq_dec N.eq_dec a b); split;
    congruence.
Qed.

Lemma unlink_removes p d : ~ In p (map fst (Carousel.unlink p d)).
Proof.
  unfold Carousel.unlink. intros H. apply in_map_iff in H as (file & <- & H).
  apply filter_In in H as [_ H]. apply negb_true_iff in H.
  assert (E : codeUnitsEq (fst file) (fst file) = true)
    by now apply codeUnitsEq_eq.
  congruence.
Qed.

Lemma unlink_others p file d :
  fst file <> p -> (In file (Carousel.unlink p d) <-> In file d).
Proof.
  intros Hq. unfold Carousel.unlink. rewrite filter_In. split; [tauto|].
  intros H. split; [exact H|]. apply negb_true_iff.
  destruct (codeUnitsEq (fst file) p) eqn:E; [|reflexivity].
  apply codeUnitsEq_eq in E. contradiction.
Qed.

Lemma unlink_absent p d : ~ In p (map fst d) -> Carousel.unlink p d = d.
Proof.
  intros H. unfold Carousel.unlink.
  apply forallb_filter_id, forallb_forall. intros file Hf.
  apply negb_true_iff. destruct (codeUnitsEq (fst file) p) eqn:E;
    [|reflexivity].
  apply codeUnitsEq_eq in E. elim H. rewrite <- E. now apply in_map.
Qed.

Lemma unlink_writeFile p content d :
  ~ In p (map fst d) ->
  Carousel.unlink p (Carousel.writeFile p content d) = d.
Proof.
  intros H. unfold Carousel.writeFile. rewrite (unlink_absent p d H).
  unfold Carousel.unlink at 1. cbn [filter fst].
  assert (Ep : codeUnitsEq p p = true) by now apply codeUnitsEq_eq.
  rewrite Ep. cbn [negb]. now apply unlink_absent.
Qed.

Lemma carousel_validate_url {P : Platform} k f i :
  Carousel.validate k f = Ok i ->
  Mongo.requiredString (Carousel.f_imageUrl f) = Ok (Carousel.imageUrl i)
  /\ Carousel._id i = Mongo.freshId k.
Proof.
  unfold Carousel.validate.
  destruct (Mongo.requiredString (Carousel.f_title f)); [|discriminate].
  destruct (Mongo.requiredString (Carousel.f_imageUrl f)); [|discriminate].
  destruct (Carousel.castAlt (Carousel.f_alt f)); [|discriminate].
  destruct (Mongo.castNumber (Carousel.f_order f)); [|discriminate].
  cbn [bind]. intros [= <-]. split; reflexivity.
Qed.

Lemma requiredString_uploads name s :
  Mongo.requiredString (Str (u "/uploads/" ++ name)) = Ok s ->
  s = u "/uploads/" ++ name.
Proof.
  change (u "/uploads/") with [47; 117; 112; 108; 111; 97; 100; 115; 47]%N.
  cbn. congruence.
Qed.

Lemma startsWith_app prefix s : Carousel.startsWith prefix (prefix ++ s) = true.
Proof.
  induction prefix as [|c prefix IH]; [reflexivity|].
  cbn. now rewrite N.eqb_refl, IH.
Qed.

Lemma StronglySorted_weaken {A} (R R' : A -> A -> Prop) l :
  (forall a b, R a b -> R' a b) ->
  StronglySorted R l -> StronglySorted R' l.
Proof.
  intros H. induction 1 as [|x l Hs IH Hx]; constructor; [exact IH|].
  eapply Forall_impl; [|exact Hx]. apply H.
Qed.

Section CarouselRoutes.
Context {P : Platform}.
Variable dirname : jstring.
Variable pathJoin : jstring -> jstring -> jstring.

(** X21: the carousel listing shows every stored image exactly once, by
    ascending [order]. *)
Theorem get_api_carousel_sorted (db : Carousel.collection) :
  exists images,
    Carousel.get_api_carousel db = Carousel.ok (Carousel.Images images) /\
    Permutation db images /\
    StronglySorted (fun a b => (Carousel.order a <= Carousel.order b)%Z)
      images.
Proof.
  exists (Carousel.sortAsc Carousel.order db). split; [reflexivity|].
  unfold Carousel.sortAsc. split; [symmetry; apply sortDesc_perm|].
  eapply StronglySorted_weaken; [|apply sortDesc_sorted].
  unfold newerFirst. intros a b. cbn. lia.
Qed.

(** X22: the multipart upload leaves no orphan: with a file it either
    answers 200, having stored one record whose URL is [/uploads/] followed
    by the name of the file, the disk untouched; or it answers 400, stores
    nothing and the file is gone from the disk, all other files staying.
    With no file it answers 400 and changes nothing. *)
Theorem upload_leaves_no_orphan (k : Mongo.clock) (db : Carousel.collection)
  (d : Carousel.disk) (b : Carousel.uploadBody) :
  Carousel.post_api_carousel_upload k db d None b
  = (Carousel.fail 400 (Carousel.ErrorText (u "No image file provided")),
     db, d) /\
  forall f,
    (exists img,
       Carousel.post_api_carousel_upload k db d (Some f) b
       = (Carousel.ok
            (Carousel.Uploaded (u "Image uploaded successfully") img),
          db ++ [img], d) /\
       Carousel.imageUrl img = u "/uploads/" ++ Carousel.filename f)
    \/ (exists e d',
          Carousel.post_api_carousel_upload k db d (Some f) b
          = (Carousel.fail 400 (Carousel.ErrorOf e), db, d') /\
          ~ In (Carousel.path f) (map fst d') /\
          forall file, fst file <> Carousel.path f ->
            (In file d' <-> In file d)).
Proof.
  split; [reflexivity|]. intros f. unfold Carousel.post_api_carousel_upload.
  destruct (Carousel.validate k _) as [img|e] eqn:Ev.
  - left. exists img. split; [reflexivity|].
    apply carousel_validate_url in Ev as [Hu _].
    cbn [Carousel.uploadFields Carousel.f_imageUrl] in Hu.
    now apply requiredString_uploads in Hu.
  - right. exists e, (Carousel.unlink (Carousel.path f) d).
    split; [reflexivity|]. split; [apply unlink_removes|].
    intros file Hq. now apply unlink_others.
Qed.

(** X23: the base64 upload writes before it validates. With image data that
    is a non-empty string the file is on the disk afterwards, holding the
    data without its data-URL prefix, beside all the other files that were
    there, whether the answer is the 200 with the stored record or the 400
    of a record that could not be saved. With image data that is absent,
    falsy or not a string it answers 400 and writes nothing. *)
Theorem upload_base64_writes_first (k : Mongo.clock) (stamp random : Z)
  (db : Carousel.collection) (d : Carousel.disk) (b : Carousel.uploadBody) :
  let name := Carousel.base64Name stamp random in
  let r := Carousel.post_api_carousel_upload_base64 dirname pathJoin
             k stamp random db d b in
  (forall s, Carousel.b_imageData b = Str s -> s <> [] ->
     In (pathJoin (Carousel.uploadDir dirname pathJoin) name,
         Carousel.stripDataUrl s) (snd r) /\
     (forall file,
        fst file <> pathJoin (Carousel.uploadDir dirname pathJoin) name ->
        In file d -> In file (snd r)) /\
     ((exists img,
         fst r = (Carousel.ok
                    (Carousel.Uploaded (u "Image uploaded successfully") img),
                  db ++ [img]) /\
         Carousel.imageUrl img = u "/uploads/" ++ name)
      \/ (exists e, fst r = (Carousel.fail 400 (Carousel.ErrorOf e), db)))) /\
  ((forall s, Carousel.b_imageData b = Str s -> s = []) ->
   Carousel.status (fst (fst r)) = 400%nat /\ snd (fst r) = db /\ snd r = d).
Proof.
  intros name r. subst r. unfold Carousel.post_api_carousel_upload_base64.
  split.
  - intros s Es Hs. rewrite Es. destruct s as [|c s]; [now elim Hs|].
    cbn [truthy negb]. fold name.
    destruct (Carousel.validate k _) as [img|e] eqn:Ev; cbn [fst snd].
    + split; [now left|].
      split; [intros file Hf Hd; right; now apply unlink_others|].
      left. exists img. split; [reflexivity|].
      apply carousel_validate_url in Ev as [Hu _].
      cbn [Carousel.uploadFields Carousel.f_imageUrl] in Hu.
      now apply requiredString_uploads in Hu.
    + split; [now left|].
      split; [intros file Hf Hd; right; now apply unlink_others|].
      right. exists e. reflexivity.
  - intros H. destruct (Carousel.b_imageData b) as [| |x|z|s|] eqn:Eb;
      cbn [truthy negb]; try (repeat split; reflexivity).
    + destruct x; repeat split; reflexivity.
    + destruct (negb (negb (z =? 0)%Z)); repeat split; reflexivity.
    + rewrite (H s eq_refl). repeat split; reflexivity.
Qed.

Lemma local_url_not_empty s :
  (match s with [] => false | _ => true end
   && Carousel.startsWith (u "/uploads/") s)
  = Carousel.startsWith (u "/uploads/") s.
Proof. destruct s; reflexivity. Qed.

(** X24: deleting a carousel image answers with the success message for
    every identifier. When no image has the identifier, records and disk
    stay as they are. Otherwise the first image with the identifier is
    removed, and the disk changes only if its URL starts with [/uploads/]:
    then the file at that URL under the server's directory is unlinked, and
    no other. *)
Theorem delete_api_carousel_unlinks_local (db : Carousel.collection)
  (d : Carousel.disk) (idParam : jstring) (oid : ObjectId) :
  parseObjectId idParam = Some oid ->
  let r := Carousel.delete_api_carousel dirname pathJoin db d idParam in
  fst (fst r) = Carousel.ok (Carousel.Message (u "Deleted successfully")) /\
  ((forall i, In i db -> Carousel._id i <> oid) ->
   snd (fst r) = db /\ snd r = d) /\
  (forall pre i post,
     db = pre ++ i :: post -> Carousel._id i = oid ->
     (forall x, In x pre -> Carousel._id x <> oid) ->
     snd (fst r) = pre ++ post /\
     snd r
     = if Carousel.startsWith (u "/uploads/") (Carousel.imageUrl i)
       then Carousel.unlink (pathJoin dirname (Carousel.imageUrl i)) d
       else d).
Proof.
  intros Hid r. subst r. unfold Carousel.delete_api_carousel.
  rewrite Hid. cbn [fst snd]. split; [reflexivity|]. split.
  - intros Ha. rewrite (findByIdAndDelete_absent Carousel._id oid db Ha).
    now split.
  - intros pre i post -> Hi Hpre.
    rewrite (findByIdAndDelete_first Carousel._id oid pre i post Hpre Hi).
    cbn [fst snd]. split; [reflexivity|]. now rewrite local_url_not_empty.
Qed.

(** X25: a base64 upload followed by the deletion of the record it stored
    gives back the records and the disk as they were, when the identifier
    was not in use, the file did not exist before, and the URL of the record
    under the server's directory is the path the file was written to. *)
Theorem upload_base64_then_delete (k : Mongo.clock) (stamp random : Z)
  (db db' : Carousel.collection) (d d' : Carousel.disk)
  (b : Carousel.uploadBody) (img : Carousel.image) (idParam : jstring) :
  Carousel.post_api_carousel_upload_base64 dirname pathJoin
    k stamp random db d b
  = (Carousel.ok (Carousel.Uploaded (u "Image uploaded successfully") img),
     db', d') ->
  (forall i, In i db -> Carousel._id i <> Mongo.freshId k) ->
  parseObjectId idParam = Some (Mongo.freshId k) ->
  pathJoin dirname (u "/uploads/" ++ Carousel.base64Name stamp random)
  = pathJoin (Carousel.uploadDir dirname pathJoin)
      (Carousel.base64Name stamp random) ->
  ~ In (pathJoin (Carousel.uploadDir dirname pathJoin)
          (Carousel.base64Name stamp random)) (map fst d) ->
  Carousel.delete_api_carousel dirname pathJoin db' d' idParam
  = (Carousel.ok (Carousel.Message (u "Deleted successfully")), db, d).
Proof.
  intros E Hfresh Hid Hpath Hnew.
  unfold Carousel.post_api_carousel_upload_base64 in E.
  destruct (negb (truthy (Carousel.b_imageData b))); [discriminate E|].
  destruct (Carousel.b_imageData b); try discriminate E.
  destruct (Carousel.validate k _) as [img'|e] eqn:Ev; [|discriminate E].
  injection E as <- <- <-.
  apply carousel_validate_url in Ev as [Hu Hi].
  cbn [Carousel.uploadFields Carousel.f_imageUrl] in Hu.
  apply requiredString_uploads in Hu.
  unfold Carousel.delete_api_carousel, Carousel.save. rewrite Hid.
  rewrite (findByIdAndDelete_first Carousel._id (Mongo.freshId k)
             db img' [] Hfresh Hi).
  cbn [fst snd]. rewrite local_url_not_empty, Hu, startsWith_app, app_nil_r.
  rewrite Hpath, (unlink_writeFile _ _ d Hnew). reflexivity.
Qed.

End CarouselRoutes.

Lemma dropPrefix_app prefix s : Carousel.dropPrefix prefix (prefix ++ s) = Some s.
Proof.
  induction prefix as [|c prefix IH]; [reflexivity|].
  cbn. now rewrite N.eqb_refl.
Qed.

Lemma dropPrefix_suffix prefix s rest :
  Carousel.dropPrefix prefix s = Some rest -> s = prefix ++ rest.
Proof.
  revert s. induction prefix as [|c prefix IH]; intros s; cbn.
  - now intros [= ->].
  - destruct s as [|x s]; [discriminate|].
    destruct (N.eqb_spec c x) as [->|_]; [|discriminate].
    intros H. now rewrite (IH s H).
Qed.

Lemma dropWord_app w rest :
  forallb Carousel.isWord w = true ->
  Carousel.dropWord (w ++ rest) = Carousel.dropWord rest.
Proof.
  induction w as [|c w IH]; [reflexivity|]. cbn.
  intros H. apply andb_true_iff in H as [-> H]. now apply IH.
Qed.

Lemma dropWord_suffix s : exists w, s = w ++ Carousel.dropWord s.
Proof.
  induction s as [|c s [w IH]]; [now exists []|]. cbn.
  destruct (Carousel.isWord c); [|now exists []].
  exists (c :: w). cbn. now f_equal.
Qed.

(** X26: stripping the data-URL prefix gives the payload back: for every
    image subtype made of one or more word characters the data URL of a
    payload is stripped to exactly the payload; and whatever the input the
    result is the input or its tail: no character of it is changed. *)
Theorem stripDataUrl_payload (imageData : jstring) :
  (forall subtype payload,
     subtype <> [] -> forallb Carousel.isWord subtype = true ->
     imageData = u "data:image/" ++ subtype ++ u ";base64," ++ payload ->
     Carousel.stripDataUrl imageData = payload) /\
  exists prefix, imageData = prefix ++ Carousel.stripDataUrl imageData.
Proof.
  split.
  - intros subtype payload Hne Hw ->. unfold Carousel.stripDataUrl.
    rewrite dropPrefix_app. destruct subtype as [|c subtype]; [now elim Hne|].
    cbn [app]. cbn [forallb] in Hw. apply andb_true_iff in Hw as [-> Hw].
    rewrite (dropWord_app subtype _ Hw).
    change (Carousel.dropWord (u ";base64," ++ payload))
      with (u ";base64," ++ payload).
    now rewrite dropPrefix_app.
  - unfold Carousel.stripDataUrl.
    destruct (Carousel.dropPrefix (u "data:image/") imageData)
      as [[|c rest]|] eqn:E1; try (now exists []).
    destruct (Carousel.isWord c); [|now exists []].
    destruct (Carousel.dropPrefix (u ";base64,") (Carousel.dropWord rest))
      as [base64Data|] eqn:E2; [|now exists []].
    apply dropPrefix_suffix in E1, E2.
    destruct (dropWord_suffix rest) as [w Hw].
    exists (u "data:image/" ++ c :: w ++ u ";base64,").
    rewrite E1, Hw at 1. rewrite E2.
    now rewrite <- app_assoc, <- app_comm_cons, <- app_assoc.
Qed.

(** * The two versions of the question route *)

Lemma filter_map_commute {A B} (g : A -> B) (f : B -> bool) l :
  filter f (map g l) = map g (filter (fun x => f (g x)) l).
Proof.
  induction l as [|x l IH]; [reflexivity|]. cbn.
  destruct (f (g x)); cbn; now rewrite IH.
Qed.

Lemma insertDesc_map {A B} (g : A -> B) (key : B -> Z) d l :
  Mongo.insertDesc key (g d) (map g l)
  = map g (Mongo.insertDesc (fun x => key (g x)) d l).
Proof.
  induction l as [|x l IH]; [reflexivity|]. cbn.
  destruct (key (g x) <=? key (g d))%Z; cbn; [reflexivity|now rewrite IH].
Qed.

Lemma sortDesc_map {A B} (g : A -> B) (key : B -> Z) l :
  Mongo.sortDesc key (map g l)
  = map g (Mongo.sortDesc (fun x => key (g x)) l).
Proof.
  induction l as [|x l IH]; [reflexivity|]. cbn.
  fold (Mongo.sortDesc key (map g l)).
  fold (Mongo.sortDesc (fun x => key (g x)) l).
  now rewrite IH, insertDesc_map.
Qed.

(** X27: the legacy server and the current one select alike: on the same
    store, seen without the Word fields, the legacy selection is the current
    selection without the Word fields, and the legacy references are the
    current references with four of their fields. *)
Theorem versions_select_alike {P : Platform} (question : jstring)
  (db : Mongo.collection) :
  exists docs,
    Server.selectContext question db = Ok docs /\
    Legacy.selectContext question (map Versions.forget db)
    = Ok (map Versions.forget docs) /\
    map Legacy.toReference (map Versions.forget docs)
    = map Versions.forgetReference (map Server.toReference docs).
Proof.
  unfold Server.selectContext, Legacy.selectContext.
  rewrite construct_escapeRegex. cbn [bind].
  unfold Mongo.find, Mongo.limit.
  rewrite filter_map_commute, firstn_map, length_map, sortDesc_map, firstn_map.
  cbn [Versions.forget Legacy.title Legacy.content Legacy.createdAt].
  match goal with
  | |- context [firstn 6 (filter ?f db)] => set (matches := firstn 6 (filter f db))
  end.
  assert (Hrefs : forall docs,
    map Legacy.toReference (map Versions.forget docs)
    = map Versions.forgetReference (map Server.toReference docs))
    by (intros docs; rewrite !map_map; reflexivity).
  destruct (length matches =? 0)%nat; eexists; repeat split; apply Hrefs.
Qed.

(** * Creating a carousel record *)

(** X28: a carousel record needs a title and a URL: when either is absent,
    null or the empty string the answer is a 400 and nothing is stored; with
    both as non-empty strings, no [alt] and an absent or falsy [order], the
    record is stored with an empty [alt] and order 0. *)
Theorem post_api_carousel_required_and_defaults {P : Platform}
  (k : Mongo.clock) (db : Carousel.collection) (b : Carousel.uploadBody) :
  let missing v := v = Undefined \/ v = Null \/ v = Str [] in
  (missing (Carousel.b_title b) \/ missing (Carousel.b_imageUrl b) ->
   Carousel.status (fst (Carousel.post_api_carousel k db b)) = 400%nat /\
   snd (Carousel.post_api_carousel k db b) = db) /\
  (forall t url,
     Carousel.b_title b = Str t -> t <> [] ->
     Carousel.b_imageUrl b = Str url -> url <> [] ->
     Carousel.b_alt b = Undefined ->
     truthy (Carousel.b_order b) = false ->
     Carousel.post_api_carousel k db b
     = (Carousel.ok
          (Carousel.Image
             {| Carousel._id := Mongo.freshId k; Carousel.title := t;
                Carousel.imageUrl := url; Carousel.alt := Some [];
                Carousel.order := 0%Z; Carousel.createdAt := Mongo.now k |}),
        db ++ [ {| Carousel._id := Mongo.freshId k; Carousel.title := t;
                   Carousel.imageUrl := url; Carousel.alt := Some [];
                   Carousel.order := 0%Z;
                   Carousel.createdAt := Mongo.now k |} ])).
Proof.
  intros missing. unfold Carousel.post_api_carousel, Carousel.validate.
  cbn [Carousel.f_title Carousel.f_imageUrl Carousel.f_alt Carousel.f_order].
  split.
  - intros [Hm|Hm].
    + destruct Hm as [-> | [-> | ->]]; now split.
    + destruct (Mongo.requiredString (Carousel.b_title b)); cbn [bind];
        [|now split].
      destruct Hm as [-> | [-> | ->]]; now split.
  - intros t url -> Ht -> Hu -> Ho. unfold JS.or. rewrite Ho.
    destruct t as [|t0 t']; [now elim Ht|].
    destruct url as [|u0 u']; [now elim Hu|]. reflexivity.
Qed.

(** * The properties at work on sample data *)

Lemma post_api_data_defaults_witness :
  snd (Server.post_api_data (P := asciiPlatform) Samples.today Samples.corpus
         MoreSamples.note)
  = Samples.corpus ++ [MoreSamples.storedNote].
Proof.
  apply (post_api_data_defaults (P := asciiPlatform) Samples.today
           Samples.corpus MoreSamples.note (u "Ghi chú") (u "Nội dung"));
    solve [reflexivity | discriminate].
Defined.

Lemma post_api_data_refuses_file_type_witness :
  Http.status
    (fst (Server.post_api_data (P := asciiPlatform) Samples.today
            Samples.corpus
            {| Server.b_title := Str (u "Ghi chú");
               Server.b_content := Str (u "Nội dung");
               Server.b_fileType := Str (u "pdf");
               Server.b_htmlContent := Undefined;
               Server.b_imageCount := Undefined |})) = 400%nat.
Proof.
  apply (post_api_data_refuses_file_type (P := asciiPlatform) Samples.today
           Samples.corpus _ (u "pdf")); solve [reflexivity | discriminate].
Defined.

Lemma created_document_is_listed_witness :
  In (Server.toReference MoreSamples.storedNote)
    (Routes.get_api_data (Samples.corpus ++ [MoreSamples.storedNote])).
Proof.
  apply (created_document_is_listed (P := asciiPlatform) Samples.today
           Samples.corpus _ MoreSamples.note).
  reflexivity.
Defined.

Lemma delete_api_data_unique_ids_witness :
  snd (Server.delete_api_data (P := asciiPlatform)
         (Samples.corpus ++ [MoreSamples.storedNote]) MoreSamples.param99)
  = Samples.corpus.
Proof.
  destruct (delete_api_data_unique_ids (P := asciiPlatform)
              (Samples.corpus ++ [MoreSamples.storedNote])
              MoreSamples.param99 99%N) as (E & _).
  - reflexivity.
  - cbn. repeat constructor; cbn; intuition discriminate.
  - rewrite E. reflexivity.
Defined.

Lemma create_then_delete_witness :
  snd (Server.delete_api_data (P := asciiPlatform)
         (Samples.corpus ++ [MoreSamples.storedNote]) MoreSamples.param99)
  = Samples.corpus.
Proof.
  apply (create_then_delete (P := asciiPlatform) Samples.today
           Samples.corpus _ MoreSamples.note
           (Server.toReference MoreSamples.storedNote) MoreSamples.param99).
  - reflexivity.
  - intros d [<-|[<-|[]]]; discriminate.
  - reflexivity.
Defined.

Lemma migrateData_text_has_no_html_witness :
  Migrate.textHasNoHtml
    (fst (Migrate.migrateData
            [MoreSamples.oldEntry; MoreSamples.nullEntry;
             MoreSamples.newEntry])).
Proof.
  apply migrateData_text_has_no_html.
  intros d [<-|[<-|[]]]; [reflexivity|discriminate].
Defined.

Lemma upload_base64_writes_first_witness :
  In (MoreSamples.joinPath
        (Carousel.uploadDir MoreSamples.serverDir MoreSamples.joinPath)
        (Carousel.base64Name 1700000000000 42),
      Carousel.stripDataUrl (u "iVBORw0KGgo="))
     (snd (Carousel.post_api_carousel_upload_base64 (P := asciiPlatform)
             MoreSamples.serverDir MoreSamples.joinPath Samples.today
             1700000000000 42 [] []
             {| Carousel.b_title := Obj;
                Carousel.b_imageUrl := Undefined;
                Carousel.b_imageData := Str (u "iVBORw0KGgo=");
                Carousel.b_alt := Undefined;
                Carousel.b_order := Undefined |}))
  /\ Carousel.status
       (fst (fst (Carousel.post_api_carousel_upload_base64
                    (P := asciiPlatform)
                    MoreSamples.serverDir MoreSamples.joinPath Samples.today
                    1700000000000 42 [] []
                    {| Carousel.b_title := Obj;
                       Carousel.b_imageUrl := Undefined;
                       Carousel.b_imageData := Str (u "iVBORw0KGgo=");
                       Carousel.b_alt := Undefined;
                       Carousel.b_order := Undefined |}))) = 400%nat.
Proof.
  split; [|reflexivity].
  pose proof (upload_base64_writes_first (P := asciiPlatform)
                MoreSamples.serverDir MoreSamples.joinPath Samples.today
                1700000000000 42 [] []
                {| Carousel.b_title := Obj;
                   Carousel.b_imageUrl := Undefined;
                   Carousel.b_imageData := Str (u "iVBORw0KGgo=");
                   Carousel.b_alt := Undefined;
                   Carousel.b_order := Undefined |}) as H.
  cbv zeta in H. destruct H as [H _].
  destruct (H (u "iVBORw0KGgo=") eq_refl) as [Hin _]; [discriminate|].
  exact Hin.
Defined.

Lemma delete_api_carousel_unlinks_local_witness :
  Carousel.delete_api_carousel (P := asciiPlatform)
    MoreSamples.serverDir MoreSamples.joinPath
    [ {| Carousel._id := 99%N; Carousel.title := u "Banner";
         Carousel.imageUrl := u "https://example.org/banner.png";
         Carousel.alt := Some []; Carousel.order := 0%Z;
         Carousel.createdAt := 300%Z |} ]
    [(u "/srv/app/uploads/a.png", u "iVBORw0KGgo=")] MoreSamples.param99
  = (Carousel.ok (Carousel.Message (u "Deleted successfully")), [],
     [(u "/srv/app/uploads/a.png", u "iVBORw0KGgo=")]).
Proof.
  pose proof (delete_api_carousel_unlinks_local (P := asciiPlatform)
                MoreSamples.serverDir MoreSamples.joinPath
                [ {| Carousel._id := 99%N; Carousel.title := u "Banner";
                     Carousel.imageUrl := u "https://example.org/banner.png";
                     Carousel.alt := Some []; Carousel.order := 0%Z;
                     Carousel.createdAt := 300%Z |} ]
                [(u "/srv/app/uploads/a.png", u "iVBORw0KGgo=")]
                MoreSamples.param99 99%N eq_refl)
    as H.
  cbv zeta in H. destruct H as (Hr & _ & Hfound).
  destruct (Hfound [] _ [] eq_refl eq_refl) as [Hdb Hdisk];
    [intros x []|].
  rewrite (surjective_pairing (Carousel.delete_api_carousel _ _ _ _ _)).
  rewrite (surjective_pairing (fst (Carousel.delete_api_carousel _ _ _ _ _))).
  rewrite Hr, Hdb, Hdisk. reflexivity.
Defined.

Lemma upload_base64_then_delete_witness :
  Carousel.post_api_carousel_upload_base64 (P := asciiPlatform)
    MoreSamples.serverDir MoreSamples.joinPath Samples.today
    1700000000000 42 [] [] MoreSamples.banner
  = (Carousel.ok (Carousel.Uploaded (u "Image uploaded successfully")
                    MoreSamples.storedBanner),
     [MoreSamples.storedBanner], [MoreSamples.bannerFile]) /\
  Carousel.delete_api_carousel (P := asciiPlatform)
    MoreSamples.serverDir MoreSamples.joinPath
    [MoreSamples.storedBanner] [MoreSamples.bannerFile] MoreSamples.param99
  = (Carousel.ok (Carousel.Message (u "Deleted successfully")), [], []).
Proof.
  assert (H : Carousel.post_api_carousel_upload_base64 (P := asciiPlatform)
                MoreSamples.serverDir MoreSamples.joinPath Samples.today
                1700000000000 42 [] [] MoreSamples.banner
              = (Carousel.ok (Carousel.Uploaded
                                (u "Image uploaded successfully")
                                MoreSamples.storedBanner),
                 [MoreSamples.storedBanner], [MoreSamples.bannerFile]))
    by reflexivity.
  split; [exact H|].
  apply (upload_base64_then_delete (P := asciiPlatform)
           MoreSamples.serverDir MoreSamples.joinPath Samples.today
           1700000000000 42 [] [MoreSamples.storedBanner]
           [] [MoreSamples.bannerFile] MoreSamples.banner
           MoreSamples.storedBanner MoreSamples.param99 H).
  - intros i [].
  - reflexivity.
  - reflexivity.
  - intros [].
Defined.

Lemma stripDataUrl_payload_witness :
  Carousel.stripDataUrl (u "data:image/png;base64,iVBORw0KGgo=")
  = u "iVBORw0KGgo=".
Proof.
  apply (proj1 (stripDataUrl_payload (u "data:image/png;base64,iVBORw0KGgo="))
           (u "png") (u "iVBORw0KGgo=")); solve [reflexivity | discriminate].
Defined.

Lemma post_api_carousel_required_and_defaults_witness :
  Carousel.status
    (fst (Carousel.post_api_carousel (P := asciiPlatform) Samples.today []
            MoreSamples.banner)) = 400%nat
  /\ snd (Carousel.post_api_carousel (P := asciiPlatform) Samples.today []
            MoreSamples.linked)
     = [ {| Carousel._id := 99%N; Carousel.title := u "Banner";
            Carousel.imageUrl := u "https://example.org/banner.png";
            Carousel.alt := Some []; Carousel.order := 0%Z;
            Carousel.createdAt := 300%Z |} ].
Proof.
  split.
  - apply (proj1 (post_api_carousel_required_and_defaults
                    (P := asciiPlatform) Samples.today [] MoreSamples.banner)).
    right. left. reflexivity.
  - rewrite (proj2 (post_api_carousel_required_and_defaults
                      (P := asciiPlatform) Samples.today [] MoreSamples.linked)
               (u "Banner") (u "https://example.org/banner.png"));
      solve [reflexivity | discriminate].
Defined.

Lemma selectContext_from_store_witness :
  NoDup Samples.corpus /\
  exists docs,
    Server.selectContext (P := asciiPlatform) (u "lịch") Samples.corpus
    = Ok docs /\ NoDup docs.
Proof.
  assert (H : NoDup Samples.corpus).
  { repeat constructor; cbn; intuition discriminate. }
  split; [exact H|].
  destruct (selectContext_from_store (P := asciiPlatform) (u "lịch")
              Samples.corpus) as (docs & E & _ & Hn).
  exists docs. split; [exact E|exact (Hn H)].
Defined.

(** The migration on the three sample entries: the entry without the field
    is skipped and stays without it. *)
Example scenario_migration :
  Migrate.migrateData
    [MoreSamples.oldEntry; MoreSamples.nullEntry; MoreSamples.newEntry]
  = ([MoreSamples.oldEntry; Migrate.withDefaults MoreSamples.nullEntry;
      MoreSamples.newEntry],
     {| Migrate.total := 3; Migrate.migrated := 1;
        Migrate.alreadyMigrated := 2 |}).
Proof. reflexivity. Qed.
